(** * The mass pull-request commenter (charts/consul/hack/mass-pr-commenter/comment.py)

    A shallow embedding of the script: the lister [fetch], the extractor
    [format], the commenter [comment] and the entry point [main], with the
    interpreter's values, the UTF-8 codec and the JSON decoder they rest on,
    and the outside world (the [gh] executable, standard input, standard
    output) as an oracle whose answers are recorded in a trace of events. *)

From Stdlib Require Import ZArith List Bool Ascii String Lia.
From Stdlib Require Import Strings.Byte Numbers.DecimalString.
From Stdlib Require Numbers.DecimalFacts Numbers.DecimalPos.
Import ListNotations.

Local Open Scope list_scope.
Local Open Scope Z_scope.

(* ================================================================== *)
(** ** Strings, bytes and errors *)

(** A Python [str] is a sequence of Unicode code points, a [bytes] object a
    sequence of octets. *)
Definition pystr := list Z.
Definition bytes := list byte.

(** [u "gh"] is the [str] literal with the given (ASCII) characters and
    [b "..."] the [bytes] object with the given octets. *)
Definition u (s : string) : pystr :=
  map (fun c => Z.of_N (N_of_ascii c)) (list_ascii_of_string s).

Definition b (s : string) : bytes := list_byte_of_string s.

(** The double-quote character, for literals that contain one. *)
Definition dq : string := String "034"%char EmptyString.

(** [s == t] on two [str]. *)
Fixpoint pystr_eqb (s t : pystr) : bool :=
  match s, t with
  | [], [] => true
  | x :: s', y :: t' => (x =? y) && pystr_eqb s' t'
  | _, _ => false
  end.

(** The exceptions the script can die of. *)
Inductive exn : Type :=
| OSError
| EOFError
| IndexError
| KeyError
| TypeError
| ValueError
| UnicodeDecodeError
| JSONDecodeError
| RecursionError.

Inductive result (A : Type) : Type :=
| Ok (a : A)
| Error (x : exn).
Arguments Ok {A} a.
Arguments Error {A} x.

Definition rbind {A B} (m : result A) (k : A -> result B) : result B :=
  match m with
  | Ok a => k a
  | Error x => Error x
  end.

Definition rmap {A B} (f : A -> B) (m : result A) : result B :=
  rbind m (fun a => Ok (f a)).

Declare Scope result_scope.
Delimit Scope result_scope with result.
Notation "x <- m ;; k" := (rbind m (fun x => k))
  (at level 61, m at next level, right associativity) : result_scope.
Notation "' p <- m ;; k" := (rbind m (fun x => match x with p => k end))
  (at level 61, p pattern, m at next level, right associativity) : result_scope.

(** Evaluation of a comprehension [[f x for x in xs]]: left to right, the
    first exception ends it. *)
Fixpoint rmapM {A B} (f : A -> result B) (xs : list A) : result (list B) :=
  match xs with
  | [] => Ok []
  | x :: xs' =>
      (y <- f x ;; ys <- rmapM f xs' ;; Ok (y :: ys))%result
  end.

(* ================================================================== *)
(** ** [bytes.decode("utf-8")] *)

Definition byte_val (x : byte) : Z := Z.of_N (Byte.to_N x).

Definition between (lo hi x : Z) : bool := (lo <=? x) && (x <=? hi).

(** A continuation octet [10xxxxxx]. *)
Definition is_cont (x : Z) : bool := between 0x80 0xBF x.

Definition cont_bits (x : Z) : Z := Z.land x 0x3F.

(** Strict decoding: truncated or overlong sequences, stray continuation
    octets, surrogates and code points above U+10FFFF raise. *)
Fixpoint decode_utf8 (bs : bytes) : result pystr :=
  match bs with
  | [] => Ok []
  | b0 :: r0 =>
      let x0 := byte_val b0 in
      if x0 <? 0x80 then rmap (cons x0) (decode_utf8 r0)
      else if between 0xC2 0xDF x0 then
        match r0 with
        | b1 :: r1 =>
            let x1 := byte_val b1 in
            if is_cont x1
            then rmap (cons (Z.lor (Z.shiftl (Z.land x0 0x1F) 6) (cont_bits x1)))
                      (decode_utf8 r1)
            else Error UnicodeDecodeError
        | _ => Error UnicodeDecodeError
        end
      else if between 0xE0 0xEF x0 then
        match r0 with
        | b1 :: b2 :: r2 =>
            let x1 := byte_val b1 in
            let x2 := byte_val b2 in
            let cp := Z.lor (Z.shiftl (Z.land x0 0x0F) 12)
                            (Z.lor (Z.shiftl (cont_bits x1) 6) (cont_bits x2)) in
            if is_cont x1 && is_cont x2 && (0x800 <=? cp)
               && negb (between 0xD800 0xDFFF cp)
            then rmap (cons cp) (decode_utf8 r2)
            else Error UnicodeDecodeError
        | _ => Error UnicodeDecodeError
        end
      else if between 0xF0 0xF4 x0 then
        match r0 with
        | b1 :: b2 :: b3 :: r3 =>
            let x1 := byte_val b1 in
            let x2 := byte_val b2 in
            let x3 := byte_val b3 in
            let cp := Z.lor (Z.shiftl (Z.land x0 0x07) 18)
                        (Z.lor (Z.shiftl (cont_bits x1) 12)
                           (Z.lor (Z.shiftl (cont_bits x2) 6) (cont_bits x3))) in
            if is_cont x1 && is_cont x2 && is_cont x3
               && between 0x10000 0x10FFFF cp
            then rmap (cons cp) (decode_utf8 r3)
            else Error UnicodeDecodeError
        | _ => Error UnicodeDecodeError
        end
      else Error UnicodeDecodeError
  end.

(* ================================================================== *)
(** ** Python values *)

(** The values [json.loads] can produce.  A [dict] keeps its keys in
    insertion order; a [float] is kept as the literal that denotes it. *)
#[local] Set Warnings "-register-all".
Inductive pyval : Type :=
| PyNone
| PyBool (t : bool)
| PyInt (n : Z)
| PyFloat (lit : pystr)
| PyStr (s : pystr)
| PyList (vs : list pyval)
| PyDict (kvs : list (pystr * pyval)).

(** [d[k]] on a dict, [None] for a missing key. *)
Fixpoint dict_get (kvs : list (pystr * pyval)) (k : pystr) : option pyval :=
  match kvs with
  | [] => None
  | (k', v) :: rest => if pystr_eqb k' k then Some v else dict_get rest k
  end.

(** [d[k] = v]: an existing key keeps its place and takes the new value, a
    new key goes last. *)
Fixpoint dict_set (kvs : list (pystr * pyval)) (k : pystr) (v : pyval)
  : list (pystr * pyval) :=
  match kvs with
  | [] => [(k, v)]
  | (k', v') :: rest =>
      if pystr_eqb k' k then (k', v) :: rest else (k', v') :: dict_set rest k v
  end.

(** The decimal text of an [int]: what [str(n)] returns, when it returns. *)
Definition str_int (n : Z) : pystr := u (NilZero.string_of_int (Z.to_int n)).

(** The interpreter converts an [int] to decimal text, and decimal text to
    an [int], only up to this number of digits, the sign not counted
    ([sys.int_info.default_max_str_digits]); beyond it both conversions
    raise [ValueError]. *)
Definition int_max_str_digits : nat := 4300.

(** The number of decimal digits of [n]. *)
Definition digit_count (n : Z) : nat := List.length (str_int (Z.abs n)).

(* ================================================================== *)
(** ** The [json] package

    The decoder of the standard library's [json] package, on a [str]: the
    grammar it accepts (including [NaN], [Infinity] and [-Infinity]) with the
    decoder's defaults (strict strings, plain [dict] and [list] results).
    Every function answers the value read and the text that follows it.
    The limit an interpreter puts on the depth of nesting is not part of
    the model. *)

Module json.

Definition is_ws (c : Z) : bool :=
  (c =? 32) || (c =? 9) || (c =? 10) || (c =? 13).

Fixpoint skip_ws (s : pystr) : pystr :=
  match s with
  | c :: r => if is_ws c then skip_ws r else s
  | [] => []
  end.

(** [s.startswith(p)], answering what follows the prefix. *)
Fixpoint strip_prefix (p s : pystr) : option pystr :=
  match p, s with
  | [], _ => Some s
  | x :: p', y :: s' => if x =? y then strip_prefix p' s' else None
  | _ :: _, [] => None
  end.

Definition is_digit (c : Z) : bool := between 48 57 c.

Definition hex_val (c : Z) : option Z :=
  if between 48 57 c then Some (c - 48)
  else if between 97 102 c then Some (c - 87)
  else if between 65 70 c then Some (c - 55)
  else None.

(** The four hexadecimal digits of a [\uXXXX] escape. *)
Definition decode_uXXXX (s : pystr) : result (Z * pystr) :=
  match s with
  | c1 :: c2 :: c3 :: c4 :: r =>
      match hex_val c1, hex_val c2, hex_val c3, hex_val c4 with
      | Some h1, Some h2, Some h3, Some h4 =>
          Ok (((h1 * 16 + h2) * 16 + h3) * 16 + h4, r)
      | _, _, _, _ => Error JSONDecodeError
      end
  | _ => Error JSONDecodeError
  end.

(** The one-letter escapes. *)
Definition backslash (c : Z) : option Z :=
  if c =? 34 then Some 34          (* quotation mark *)
  else if c =? 92 then Some 92     (* reverse solidus *)
  else if c =? 47 then Some 47     (* solidus *)
  else if c =? 98 then Some 8      (* b: backspace *)
  else if c =? 102 then Some 12    (* f: form feed *)
  else if c =? 110 then Some 10    (* n: line feed *)
  else if c =? 114 then Some 13    (* r: carriage return *)
  else if c =? 116 then Some 9     (* t: tab *)
  else None.

(** The body of a string literal, after its opening quote.  A surrogate
    pair written as two escapes is one character. *)
Fixpoint scanstring_from (fuel : nat) (s : pystr) : result (pystr * pystr) :=
  match fuel with
  | O => Error RecursionError
  | S fuel' =>
      match s with
      | [] => Error JSONDecodeError                       (* unterminated *)
      | c :: r =>
          if c =? 34 then Ok ([], r)
          else if c =? 92 then
            match r with
            | [] => Error JSONDecodeError
            | e :: r1 =>
                if e =? 117 then
                  ('(uni, r2) <- decode_uXXXX r1 ;;
                   '(ch, r3) <-
                     (if between 0xD800 0xDBFF uni then
                        match strip_prefix [92; 117] r2 with
                        | Some r2' =>
                            '(uni2, r2'') <- decode_uXXXX r2' ;;
                            if between 0xDC00 0xDFFF uni2
                            then Ok (0x10000 +
                                       Z.lor (Z.shiftl (uni - 0xD800) 10)
                                             (uni2 - 0xDC00), r2'')
                            else Ok (uni, r2)
                        | None => Ok (uni, r2)
                        end
                      else Ok (uni, r2)) ;;
                   '(chars, rest) <- scanstring_from fuel' r3 ;;
                   Ok (ch :: chars, rest))%result
                else
                  match backslash e with
                  | Some ch =>
                      ('(chars, rest) <- scanstring_from fuel' r1 ;;
                       Ok (ch :: chars, rest))%result
                  | None => Error JSONDecodeError
                  end
            end
          else if c <? 32 then Error JSONDecodeError       (* control char *)
          else
            ('(chars, rest) <- scanstring_from fuel' r ;;
             Ok (c :: chars, rest))%result
      end
  end.

Definition scanstring (s : pystr) : result (pystr * pystr) :=
  scanstring_from (S (List.length s)) s.

(** The longest run of digits at the head of the text. *)
Fixpoint span_digits (s : pystr) : pystr * pystr :=
  match s with
  | c :: r =>
      if is_digit c then let (ds, rest) := span_digits r in (c :: ds, rest)
      else ([], s)
  | [] => ([], [])
  end.

Definition digits_value (ds : pystr) : Z :=
  fold_left (fun acc c => acc * 10 + (c - 48)) ds 0.

(** A number literal: an optional minus sign, then a single zero or a
    nonzero digit followed by digits, then optionally a fraction (a dot and
    one or more digits) and optionally an exponent (e or E, an optional sign,
    one or more digits).  An [int] when neither fraction nor exponent is
    there, a [float] otherwise.  The literal is matched whatever its length;
    what is answered with the rest of the text is the conversion of the
    literal, which raises for an [int] of too many digits. *)
Definition match_number (s : pystr) : option (result pyval * pystr) :=
  let '(sign, s1) :=
    match s with
    | c :: r => if c =? 45 then ([45], r) else ([], s)
    | [] => ([], s)
    end in
  match s1 with
  | [] => None
  | c :: r =>
      if is_digit c then
        let '(int_part, s2) :=
          if c =? 48 then ([c], r)
          else let (ds, rest) := span_digits r in (c :: ds, rest) in
        let '(frac, s3) :=
          match s2 with
          | d :: r2 =>
              if d =? 46 then
                match span_digits r2 with
                | ([], _) => ([], s2)
                | (ds, rest) => (d :: ds, rest)
                end
              else ([], s2)
          | [] => ([], s2)
          end in
        let '(exp, s4) :=
          match s3 with
          | e :: r3 =>
              if (e =? 101) || (e =? 69) then
                let '(esign, r4) :=
                  match r3 with
                  | g :: r3' =>
                      if (g =? 45) || (g =? 43) then ([g], r3') else ([], r3)
                  | [] => ([], r3)
                  end in
                match span_digits r4 with
                | ([], _) => ([], s3)
                | (ds, rest) => (e :: esign ++ ds, rest)
                end
              else ([], s3)
          | [] => ([], s3)
          end in
        match frac, exp with
        | [], [] =>
            if (int_max_str_digits <? List.length int_part)%nat
            then Some (Error ValueError, s4)
            else Some (Ok (PyInt (match sign with
                                  | [] => digits_value int_part
                                  | _ => - digits_value int_part
                                  end)), s4)
        | _, _ => Some (Ok (PyFloat (sign ++ int_part ++ frac ++ exp)), s4)
        end
      else None
  end.

(** The scanner enters one more level of the interpreter's call stack at
    every opening bracket or brace.  The script leaves the recursion limit
    at its default of 1000, and five frames are in use when the scanner
    starts (the module, [format], [loads] and the decoder's two methods), so
    an array or object inside 994 others is refused with [RecursionError]. *)
Definition max_nesting : nat := 994.

(** A syntax error found inside a string, an array or an object is made
    into the decoder's exception where it is found, which takes three more
    levels of the stack: with fewer than three left, that is inside 992
    arrays or objects or more, it comes out as [RecursionError].  A missing
    value is reported to the decoder's outermost method first and always
    comes out as the decoder's exception. *)
Definition errmsg (depth : nat) : exn :=
  if (depth <? 3)%nat then RecursionError else JSONDecodeError.

Definition scanstring_at (depth : nat) (s : pystr) : result (pystr * pystr) :=
  match scanstring s with
  | Error JSONDecodeError => Error (errmsg depth)
  | r => r
  end.

(** One JSON value at the head of the text.  The three functions follow the
    decoder's scanner, array reader and object reader; [depth] is the number
    of levels of nesting still allowed.  Each call uses one unit of [fuel];
    a nested array or object takes two calls and at least one character, an
    element or member one call and at least two characters, so [loads]
    starts them with twice the length of the text and two more. *)
Fixpoint scan_once (fuel depth : nat) (s : pystr) {struct fuel}
  : result (pyval * pystr) :=
  match fuel with
  | O => Error RecursionError
  | S fuel' =>
      match s with
      | [] => Error JSONDecodeError
      | c :: r =>
          if c =? 34 then
            ('(chars, rest) <- scanstring_at depth r ;;
             Ok (PyStr chars, rest))%result
          else if c =? 123 then
            match depth with
            | O => Error RecursionError
            | S depth' =>
                let r' := skip_ws r in
                match r' with
                | d :: r'' =>
                    if d =? 125 then Ok (PyDict [], r'')
                    else if d =? 34 then JSONObject fuel' depth' r'' []
                    else Error (errmsg depth')
                | [] => Error (errmsg depth')
                end
            end
          else if c =? 91 then
            match depth with
            | O => Error RecursionError
            | S depth' =>
                let r' := skip_ws r in
                match r' with
                | d :: r'' =>
                    if d =? 93 then Ok (PyList [], r'')
                    else JSONArray fuel' depth' r' []
                | [] => Error JSONDecodeError
                end
            end
          else
            match strip_prefix (u "null") s with
            | Some rest => Ok (PyNone, rest)
            | None =>
            match strip_prefix (u "true") s with
            | Some rest => Ok (PyBool true, rest)
            | None =>
            match strip_prefix (u "false") s with
            | Some rest => Ok (PyBool false, rest)
            | None =>
            match match_number s with
            | Some (res, rest) => (v <- res ;; Ok (v, rest))%result
            | None =>
            match strip_prefix (u "NaN") s with
            | Some rest => Ok (PyFloat (u "NaN"), rest)
            | None =>
            match strip_prefix (u "Infinity") s with
            | Some rest => Ok (PyFloat (u "Infinity"), rest)
            | None =>
            match strip_prefix (u "-Infinity") s with
            | Some rest => Ok (PyFloat (u "-Infinity"), rest)
            | None => Error JSONDecodeError
            end end end end end end end
      end
  end

(** The elements of an array from the first one on; [acc] holds those read
    so far, last first. *)
with JSONArray (fuel depth : nat) (s : pystr) (acc : list pyval)
  {struct fuel} : result (pyval * pystr) :=
  match fuel with
  | O => Error RecursionError
  | S fuel' =>
      ('(v, r) <- scan_once fuel' depth s ;;
       match skip_ws r with
       | d :: r' =>
           if d =? 93 then Ok (PyList (rev (v :: acc)), r')
           else if d =? 44 then JSONArray fuel' depth (skip_ws r') (v :: acc)
           else Error (errmsg depth)
       | [] => Error (errmsg depth)
       end)%result
  end

(** The members of an object, after the opening quote of a key; [acc] is
    the dict built so far. *)
with JSONObject (fuel depth : nat) (s : pystr) (acc : list (pystr * pyval))
  {struct fuel} : result (pyval * pystr) :=
  match fuel with
  | O => Error RecursionError
  | S fuel' =>
      ('(key, r) <- scanstring_at depth s ;;
       match skip_ws r with
       | c :: r1 =>
           if c =? 58 then
             '(v, r2) <- scan_once fuel' depth (skip_ws r1) ;;
             let acc' := dict_set acc key v in
             match skip_ws r2 with
             | d :: r3 =>
                 if d =? 125 then Ok (PyDict acc', r3)
                 else if d =? 44 then
                   match skip_ws r3 with
                   | q :: r4 =>
                       if q =? 34 then JSONObject fuel' depth r4 acc'
                       else Error (errmsg depth)
                   | [] => Error (errmsg depth)
                   end
                 else Error (errmsg depth)
             | [] => Error (errmsg depth)
             end
           else Error (errmsg depth)
       | [] => Error (errmsg depth)
       end)%result
  end.

(** [json.loads(s)], called as [format] calls it: a byte-order mark is
    refused, white space around the one value is skipped, anything after it
    is an error. *)
Definition loads (s : pystr) : result pyval :=
  match s with
  | 0xFEFF :: _ => Error JSONDecodeError
  | _ =>
      let s' := skip_ws s in
      ('(v, rest) <- scan_once (2 * List.length s' + 2) max_nesting s' ;;
       match skip_ws rest with
       | [] => Ok v
       | _ :: _ => Error JSONDecodeError
       end)%result
  end.

End json.

(** [from json import loads] *)
Definition loads : pystr -> result pyval := json.loads.

(* ================================================================== *)
(** ** The operations of the interpreter the script uses *)

(** [for x in v]: the elements of a list, the keys of a dict, the
    characters of a string; nothing else that [loads] answers is iterable. *)
Definition py_iter (v : pyval) : result (list pyval) :=
  match v with
  | PyList vs => Ok vs
  | PyDict kvs => Ok (map (fun kv => PyStr (fst kv)) kvs)
  | PyStr s => Ok (map (fun c => PyStr [c]) s)
  | _ => Error TypeError
  end.

(** [v[k]] for a [str] key [k]: a dict is looked up, a list or a string
    wants an integer index, the other values are not subscriptable. *)
Definition py_getitem (v : pyval) (k : pystr) : result pyval :=
  match v with
  | PyDict kvs =>
      match dict_get kvs k with
      | Some x => Ok x
      | None => Error KeyError
      end
  | _ => Error TypeError
  end.

(** [argv[i]]. *)
Definition argv_get (argv : list pystr) (i : nat) : result pystr :=
  match nth_error argv i with
  | Some a => Ok a
  | None => Error IndexError
  end.

(* ================================================================== *)
(** ** The outside world *)

(** What the script does to the world, with the world's answer.
    [EvRun argv out]: [subprocess.run(argv, stdout=PIPE)], where [out] is the
    captured standard output, or [None] when the process could not be
    started; the exit status is never looked at. *)
Inductive event : Type :=
| EvRun (argv : list pystr) (out : option bytes)
| EvInput (prompt : pystr) (line : option pystr)
| EvPrint (line : pystr).

Definition trace := list event.

(** The world answers from what happened so far.  [str_other] is the
    interpreter's [str()] on floats, lists and dicts. *)
Record world : Type := {
  tool : trace -> list pystr -> option bytes;
  stdin : trace -> pystr -> option pystr;
  str_other : pyval -> pystr;
}.

(** A computation reads and extends the trace and returns or raises. *)
Definition prog (A : Type) : Type := trace -> result A * trace.

Definition ret {A} (a : A) : prog A := fun tr => (Ok a, tr).

Definition lift {A} (r : result A) : prog A := fun tr => (r, tr).

Definition bind {A B} (m : prog A) (k : A -> prog B) : prog B :=
  fun tr =>
    match m tr with
    | (Ok a, tr') => k a tr'
    | (Error x, tr') => (Error x, tr')
    end.

Declare Scope prog_scope.
Delimit Scope prog_scope with prog.
Notation "x <- m ;; k" := (bind m (fun x => k))
  (at level 61, m at next level, right associativity) : prog_scope.

(** A generator expression consumed to its end: one element after the
    other, the first exception ends it. *)
Fixpoint pmapM {A B} (f : A -> prog B) (xs : list A) : prog (list B) :=
  match xs with
  | [] => ret []
  | x :: xs' =>
      (y <- f x ;; ys <- pmapM f xs' ;; ret (y :: ys))%prog
  end.

(** [run(argv, stdout=PIPE).stdout].  Whether the process starts is the
    world's answer; the arguments are taken to be texts the operating system
    accepts (see [arg_clean] below). *)
Definition run (w : world) (argv : list pystr) : prog bytes :=
  fun tr =>
    let out := tool w tr argv in
    (match out with
     | Some bs => Ok bs
     | None => Error OSError
     end, tr ++ [EvRun argv out]).

(** [input(prompt)] *)
Definition input (w : world) (prompt : pystr) : prog pystr :=
  fun tr =>
    let line := stdin w tr prompt in
    (match line with
     | Some l => Ok l
     | None => Error EOFError
     end, tr ++ [EvInput prompt line]).

(** [print(line)] *)
Definition print (line : pystr) : prog unit :=
  fun tr => (Ok tt, tr ++ [EvPrint line]).

(** The text of [str(v)]. *)
Definition py_str (w : world) (v : pyval) : pystr :=
  match v with
  | PyNone => u "None"
  | PyBool true => u "True"
  | PyBool false => u "False"
  | PyInt n => str_int n
  | PyStr s => s
  | _ => str_other w v
  end.

(** Whether [str(v)] returns: not for an [int] of more digits than the
    limit, nor for a list or a dict that holds one, whose text contains the
    text of its elements. *)
Fixpoint str_returns (v : pyval) : bool :=
  match v with
  | PyInt n => (digit_count n <=? int_max_str_digits)%nat
  | PyList vs => forallb str_returns vs
  | PyDict kvs => forallb (fun kv => str_returns (snd kv)) kvs
  | _ => true
  end.

(** [str(v)] *)
Definition str_of (w : world) (v : pyval) : result pystr :=
  if str_returns v then Ok (py_str w v) else Error ValueError.

(* ================================================================== *)
(** ** The script *)

(** The command line of [fetch].  The source writes the argument after
    [--json] as double quotes inside single quotes, so the double quotes
    belong to the value; no shell stands between the list and the process. *)
Definition fetch_argv (repo : pystr) : list pystr :=
  [u "gh"; u "pr"; u "list"; u "--json"; u (dq ++ "number" ++ dq)%string;
   u "-R"; repo].

(** The lister: the bytes the listing printed. *)
Definition fetch (w : world) (repo : pystr) : prog bytes :=
  run w (fetch_argv repo).

(** The extractor: [[pr["number"] for pr in loads(prs.decode("utf-8"))]]. *)
Definition format (prs : bytes) : result (list pyval) :=
  (text <- decode_utf8 prs ;;
   v <- loads text ;;
   items <- py_iter v ;;
   rmapM (fun pr => py_getitem pr (u "number")) items)%result.

(** The command line of one comment. *)
Definition comment_argv (w : world) (pr : pyval) (repo comment_file : pystr)
  : list pystr :=
  [u "gh"; u "pr"; u "comment"; py_str w pr; u "-F"; comment_file;
   u "-R"; repo].

(** The element expression of the generator in [comment]: the identifier
    is converted, the tool is invoked, its standard output is decoded. *)
Definition comment_one (w : world) (repo comment_file : pystr) (pr : pyval)
  : prog pystr :=
  (_ <- lift (str_of w pr) ;;
   out <- run w (comment_argv w pr repo comment_file) ;;
   lift (decode_utf8 out))%prog.

(** The commenter: the outputs of all invocations, joined by the empty
    string once the generator is exhausted. *)
Definition comment (w : world) (prs : list pyval) (repo comment_file : pystr)
  : prog pystr :=
  (texts <- pmapM (comment_one w repo comment_file) prs ;;
   ret (List.concat texts))%prog.

(** The question put to the user, for [n] pull requests. *)
Definition prompt_text (n : nat) (repo comment_file : pystr) : pystr :=
  u "Comment on " ++ str_int (Z.of_nat n) ++ u " pull requests to the "
    ++ repo ++ u " repository with the contents of " ++ comment_file
    ++ u "? [y/N] ".

(** The body of the script, run with [sys.argv = argv]. *)
Definition main (w : world) (argv : list pystr) : prog unit :=
  (repo <- lift (argv_get argv 1) ;;
   comment_file <- lift (argv_get argv 2) ;;
   raw <- fetch w repo ;;
   prs <- lift (format raw) ;;
   response <- input w (prompt_text (List.length prs) repo comment_file) ;;
   if pystr_eqb response (u "y") || pystr_eqb response (u "Y") then
     _ <- comment w prs repo comment_file ;;
     print (u "Done")
   else ret tt)%prog.

(* ================================================================== *)
(** ** Reading a trace *)

(** The text an invocation left on its standard output, as the script
    obtains it: [OSError] when the process did not start, a decoding error
    when the output is not UTF-8. *)
Definition stdout_text (out : option bytes) : result pystr :=
  match out with
  | Some bs => decode_utf8 bs
  | None => Error OSError
  end.

(** The events of commenting on the first pull requests of [prs], one per
    answer of the tool in [outs]. *)
Definition comment_events (w : world) (repo comment_file : pystr)
  (prs : list pyval) (outs : list (option bytes)) : list event :=
  map (fun po => EvRun (comment_argv w (fst po) repo comment_file) (snd po))
      (combine prs outs).

(** An invocation of [gh pr comment]. *)
Definition is_comment_run (ev : event) : bool :=
  match ev with
  | EvRun (g :: p :: c :: _) _ =>
      pystr_eqb g (u "gh") && pystr_eqb p (u "pr") && pystr_eqb c (u "comment")
  | _ => false
  end.

Definition comment_runs (tr : trace) : list event := filter is_comment_run tr.

Definition is_input (ev : event) : bool :=
  match ev with
  | EvInput _ _ => true
  | _ => false
  end.

(** The argument that follows [--json] on a command line. *)
Fixpoint json_field_arg (argv : list pystr) : option pystr :=
  match argv with
  | a :: rest =>
      if pystr_eqb a (u "--json") then hd_error rest else json_field_arg rest
  | [] => None
  end.

(** The value under the key [number], for a dict that has the key. *)
Definition number_of (v : pyval) : option pyval :=
  match v with
  | PyDict kvs => dict_get kvs (u "number")
  | _ => None
  end.

Definition is_int (v : pyval) : bool :=
  match v with
  | PyInt _ => true
  | _ => false
  end.

Definition is_object (v : pyval) : bool :=
  match v with
  | PyDict _ => true
  | _ => false
  end.

(** A JSON array all of whose elements are objects. *)
Definition array_of_objects (v : pyval) : bool :=
  match v with
  | PyList vs => forallb is_object vs
  | _ => false
  end.

(** The empty string and the empty object: iterable, with nothing in them. *)
Definition empty_text_or_object (v : pyval) : bool :=
  match v with
  | PyStr [] => true
  | PyDict [] => true
  | _ => false
  end.

(** The element is a dict whose [number] is an [int]. *)
Definition has_int_number (v : pyval) : bool :=
  match number_of v with
  | Some (PyInt _) => true
  | _ => false
  end.

(** The value a listing denotes: its bytes decoded, the text parsed. *)
Definition decoded (raw : bytes) : result pyval :=
  (text <- decode_utf8 raw ;; loads text)%result.

(** A text that can be handed to the operating system as an argument of a
    process: no NUL character and no surrogate code point.  The elements of
    [sys.argv] have no NUL, and so has the decimal text of an [int]. *)
Definition arg_clean (s : pystr) : bool :=
  forallb (fun c => negb (c =? 0) && negb (between 0xD800 0xDFFF c)) s.

(** What the tool answers when it is asked to comment on the elements of
    [prs] one after the other, from the trace [tr] on. *)
Fixpoint tool_answers (w : world) (repo comment_file : pystr)
  (prs : list pyval) (tr : trace) : list (option bytes) :=
  match prs with
  | [] => []
  | pr :: rest =>
      let argv := comment_argv w pr repo comment_file in
      let out := tool w tr argv in
      out :: tool_answers w repo comment_file rest (tr ++ [EvRun argv out])
  end.

(** How a call of the commenter ends, told from the tool's answers: with
    the joined texts after one invocation per element; with the failure of
    the first invocation that does not start or whose output is not UTF-8,
    right after that invocation; or with [ValueError] at the first
    identifier that cannot be converted, before any invocation for it. *)
Inductive comment_ends (w : world) (repo comment_file : pystr)
  (prs : list pyval) (tr : trace) : result pystr * trace -> Prop :=
| ends_completed texts :
    forallb str_returns prs = true ->
    rmapM stdout_text (tool_answers w repo comment_file prs tr) = Ok texts ->
    comment_ends w repo comment_file prs tr
      (Ok (List.concat texts),
       tr ++ comment_events w repo comment_file prs
               (tool_answers w repo comment_file prs tr))
| ends_at_invocation done pr rest texts x :
    prs = done ++ pr :: rest ->
    forallb str_returns (done ++ [pr]) = true ->
    rmapM stdout_text (tool_answers w repo comment_file done tr) = Ok texts ->
    stdout_text
      (tool w (tr ++ comment_events w repo comment_file done
                       (tool_answers w repo comment_file done tr))
            (comment_argv w pr repo comment_file)) = Error x ->
    comment_ends w repo comment_file prs tr
      (Error x,
       tr ++ comment_events w repo comment_file (done ++ [pr])
               (tool_answers w repo comment_file (done ++ [pr]) tr))
| ends_at_conversion done pr rest texts :
    prs = done ++ pr :: rest ->
    forallb str_returns done = true ->
    str_returns pr = false ->
    rmapM stdout_text (tool_answers w repo comment_file done tr) = Ok texts ->
    comment_ends w repo comment_file prs tr
      (Error ValueError,
       tr ++ comment_events w repo comment_file done
               (tool_answers w repo comment_file done tr)).

(** A stand-in for [gh]: the [list] sub-command prints [listing], every
    other one prints [said]; standard input holds the line [answer]. *)
Definition stub_world (listing said : bytes) (answer : pystr) : world :=
  {| tool := fun _ argv =>
       match argv with
       | _ :: _ :: sub :: _ =>
           if pystr_eqb sub (u "list") then Some listing else Some said
       | _ => Some said
       end;
     stdin := fun _ _ => Some answer;
     str_other := fun _ => u "?" |}.

(** A world without the executable: no invocation can be started. *)
Definition absent_tool_world : world :=
  {| tool := fun _ _ => None;
     stdin := fun _ _ => None;
     str_other := fun _ => u "?" |}.

(** The listing with the pull requests 5 and 7, and the command line of the
    examples. *)
Definition listing_5_7 : bytes :=
  b ("[{" ++ dq ++ "number" ++ dq ++ ":5},{" ++ dq ++ "number" ++ dq ++ ":7}]")%string.

Definition demo_argv : list pystr := [u "comment.py"; u "org/repo"; u "msg.md"].

Definition demo_world (answer : string) : world :=
  stub_world listing_5_7 (b "posted") (u answer).

(** The element is a dict with the key [number]. *)
Definition has_number (v : pyval) : bool :=
  match number_of v with
  | Some _ => true
  | None => false
  end.

(** Nothing that could continue a number literal comes next: no digit, no
    dot, no exponent mark. *)
Definition ends_number (rest : pystr) : bool :=
  match rest with
  | [] => true
  | c :: _ =>
      negb (json.is_digit c || (c =? 46) || (c =? 101) || (c =? 69))
  end.

(** The compact JSON listing of the pull requests [ns], as text: an array
    of objects with the one member [number], no white space. *)
Definition listing_item (n : Z) : pystr :=
  u ("{" ++ dq ++ "number" ++ dq ++ ":")%string ++ str_int n ++ [125].

Fixpoint listing_items (ns : list Z) : pystr :=
  match ns with
  | [] => []
  | [n] => listing_item n
  | n :: rest => listing_item n ++ [44] ++ listing_items rest
  end.

Definition listing_text (ns : list Z) : pystr :=
  [91] ++ listing_items ns ++ [93].

(** [s.encode()] for a text of ASCII characters: one octet each. *)
Definition encode_ascii (s : pystr) : bytes :=
  map (fun c => match Byte.of_N (Z.to_N c) with
                | Some x => x
                | None => x00
                end) s.

(** The object the listing holds for the pull request [n]. *)
Definition number_object (n : Z) : pyval := PyDict [(u "number", PyInt n)].

(** An invocation of [gh pr list]. *)
Definition is_list_run (ev : event) : bool :=
  match ev with
  | EvRun (g :: p :: c :: _) _ =>
      pystr_eqb g (u "gh") && pystr_eqb p (u "pr") && pystr_eqb c (u "list")
  | _ => false
  end.

Definition is_print (ev : event) : bool :=
  match ev with
  | EvPrint _ => true
  | _ => false
  end.

(** The answer is one of the two that [main] takes for a yes. *)
Definition is_yes (response : pystr) : bool :=
  pystr_eqb response (u "y") || pystr_eqb response (u "Y").

(** Octets below 128 only. *)
Definition is_ascii (bs : bytes) : bool :=
  forallb (fun x => byte_val x <? 0x80) bs.

(** How a run of the script ends, told from the command line and the
    world's answers: the arguments are missing; the listing cannot be
    started; the listing is not what [format] accepts; standard input is at
    its end; the answer is not a yes; the commenter returns and the marker
    is printed; the commenter raises. *)
Inductive main_outcome (w : world) (argv : list pystr)
  : result unit * trace -> Prop :=
| ends_without_arguments :
    (List.length argv < 3)%nat ->
    main_outcome w argv (Error IndexError, [])
| ends_without_tool script repo cf rest :
    argv = script :: repo :: cf :: rest ->
    tool w [] (fetch_argv repo) = None ->
    main_outcome w argv (Error OSError, [EvRun (fetch_argv repo) None])
| ends_at_listing script repo cf rest raw x :
    argv = script :: repo :: cf :: rest ->
    tool w [] (fetch_argv repo) = Some raw ->
    format raw = Error x ->
    main_outcome w argv (Error x, [EvRun (fetch_argv repo) (Some raw)])
| ends_at_end_of_input script repo cf rest raw prs :
    argv = script :: repo :: cf :: rest ->
    tool w [] (fetch_argv repo) = Some raw ->
    format raw = Ok prs ->
    stdin w [EvRun (fetch_argv repo) (Some raw)]
          (prompt_text (List.length prs) repo cf) = None ->
    main_outcome w argv
      (Error EOFError,
       [EvRun (fetch_argv repo) (Some raw);
        EvInput (prompt_text (List.length prs) repo cf) None])
| ends_declined script repo cf rest raw prs response :
    argv = script :: repo :: cf :: rest ->
    tool w [] (fetch_argv repo) = Some raw ->
    format raw = Ok prs ->
    stdin w [EvRun (fetch_argv repo) (Some raw)]
          (prompt_text (List.length prs) repo cf) = Some response ->
    is_yes response = false ->
    main_outcome w argv
      (Ok tt,
       [EvRun (fetch_argv repo) (Some raw);
        EvInput (prompt_text (List.length prs) repo cf) (Some response)])
| ends_done script repo cf rest raw prs response s tr :
    argv = script :: repo :: cf :: rest ->
    tool w [] (fetch_argv repo) = Some raw ->
    format raw = Ok prs ->
    stdin w [EvRun (fetch_argv repo) (Some raw)]
          (prompt_text (List.length prs) repo cf) = Some response ->
    is_yes response = true ->
    comment_ends w repo cf prs
      [EvRun (fetch_argv repo) (Some raw);
       EvInput (prompt_text (List.length prs) repo cf) (Some response)]
      (Ok s, tr) ->
    main_outcome w argv (Ok tt, tr ++ [EvPrint (u "Done")])
| ends_at_comment script repo cf rest raw prs response x tr :
    argv = script :: repo :: cf :: rest ->
    tool w [] (fetch_argv repo) = Some raw ->
    format raw = Ok prs ->
    stdin w [EvRun (fetch_argv repo) (Some raw)]
          (prompt_text (List.length prs) repo cf) = Some response ->
    is_yes response = true ->
    comment_ends w repo cf prs
      [EvRun (fetch_argv repo) (Some raw);
       EvInput (prompt_text (List.length prs) repo cf) (Some response)]
      (Error x, tr) ->
    main_outcome w argv (Error x, tr).

(** Two proof steps about number literals: the tests on a first character
    that is known, and the tail of [match_number] when nothing continues
    the literal and its digits are within the limit. *)
Ltac first_char :=
  match goal with |- context [Z.of_N (N_of_ascii ?c)] =>
    let v := eval vm_compute in (Z.of_N (N_of_ascii c)) in
    change (Z.of_N (N_of_ascii c)) with v in * end;
  cbn [Z.eqb Pos.eqb json.is_digit between Z.leb Z.compare Pos.compare
       Pos.compare_cont andb].

Ltac number_tail H Hv Hl :=
  match goal with
  | |- context [match ?r with [] => _ | _ :: _ => _ end] =>
      destruct r as [|c r];
      [ cbn iota beta zeta; rewrite ?Hl, ?Hv; reflexivity
      | destruct H as (_ & H46 & H101 & H69);
        rewrite H46; cbn iota beta zeta; rewrite H101, H69;
        cbn iota beta zeta; rewrite ?Hl, ?Hv; reflexivity ]
  end.

(* ================================================================== *)
(** ** Basic facts *)

Arguments u : simpl never.
Arguments fetch_argv : simpl never.
Arguments comment_argv : simpl never.
Arguments prompt_text : simpl never.

Lemma pystr_eqb_refl (s : pystr) : pystr_eqb s s = true.
Proof.
  induction s as [|c s IH]; simpl; [reflexivity|].
  now rewrite Z.eqb_refl, IH.
Qed.

Lemma pystr_eqb_eq (s t : pystr) : pystr_eqb s t = true <-> s = t.
Proof.
  split.
  - revert t; induction s as [|c s IH]; intros [|d t] H; simpl in H;
      try discriminate; [reflexivity|].
    apply andb_true_iff in H as [Hc Hs].
    apply Z.eqb_eq in Hc. apply IH in Hs. now subst.
  - intros <-. apply pystr_eqb_refl.
Qed.

Lemma pystr_eqb_neq (s t : pystr) : s <> t -> pystr_eqb s t = false.
Proof.
  intros H. destruct (pystr_eqb s t) eqn:E; [|reflexivity].
  apply pystr_eqb_eq in E. contradiction.
Qed.


(* ================================================================== *)
(** ** The decoder: what it consumes, its digits and its fuel *)

Lemma skip_ws_length s : (List.length (json.skip_ws s) <= List.length s)%nat.
Proof.
  induction s as [|c s IH]; simpl; [lia|].
  destruct (json.is_ws c); simpl; lia.
Qed.

Lemma strip_prefix_length : forall p s r,
  json.strip_prefix p s = Some r ->
  List.length s = (List.length p + List.length r)%nat.
Proof.
  induction p as [|x p IH]; intros [|y s] r H; simpl in H;
    try discriminate; try (injection H as <-; reflexivity).
  destruct (x =? y); [|discriminate]. simpl. now rewrite (IH s r H).
Qed.

Lemma span_digits_length s :
  (List.length (snd (json.span_digits s)) <= List.length s)%nat.
Proof.
  induction s as [|c s IH]; simpl; [lia|].
  destruct (json.is_digit c); [|simpl; lia].
  destruct (json.span_digits s) as [ds rest]. simpl in *. lia.
Qed.

Lemma span_digits_digits s :
  forallb json.is_digit (fst (json.span_digits s)) = true.
Proof.
  induction s as [|c s IH]; simpl; [reflexivity|].
  destruct (json.is_digit c) eqn:E; [|reflexivity].
  destruct (json.span_digits s) as [ds rest]. simpl in *. now rewrite E.
Qed.

Lemma u_cons c s : u (String c s) = Z.of_N (N_of_ascii c) :: u s.
Proof. reflexivity. Qed.

Lemma u_nil : u EmptyString = [].
Proof. reflexivity. Qed.

Lemma string_of_uint_length d :
  List.length (u (NilEmpty.string_of_uint d)) = Decimal.nb_digits d.
Proof.
  induction d; cbn [NilEmpty.string_of_uint Decimal.nb_digits];
    rewrite ?u_cons, ?u_nil; simpl List.length; congruence.
Qed.

(** A run of digits is the text of a decimal numeral. *)
Lemma digits_uint : forall ds,
  forallb json.is_digit ds = true ->
  exists d, u (NilEmpty.string_of_uint d) = ds.
Proof.
  induction ds as [|c ds IH]; intros H; [now exists Decimal.Nil|].
  simpl in H. apply andb_true_iff in H as [Hc Hds].
  destruct (IH Hds) as [d <-].
  unfold json.is_digit, between in Hc.
  apply andb_true_iff in Hc as [Hlo Hhi].
  apply Z.leb_le in Hlo. apply Z.leb_le in Hhi.
  assert (Hcs : c = 48 \/ c = 49 \/ c = 50 \/ c = 51 \/ c = 52 \/
                c = 53 \/ c = 54 \/ c = 55 \/ c = 56 \/ c = 57) by lia.
  destruct Hcs as [->|[->|[->|[->|[->|[->|[->|[->|[->| ->]]]]]]]]];
    [ exists (Decimal.D0 d) | exists (Decimal.D1 d) | exists (Decimal.D2 d)
    | exists (Decimal.D3 d) | exists (Decimal.D4 d) | exists (Decimal.D5 d)
    | exists (Decimal.D6 d) | exists (Decimal.D7 d) | exists (Decimal.D8 d)
    | exists (Decimal.D9 d) ]; reflexivity.
Qed.

Lemma digits_value_acc d : forall acc,
  fold_left (fun acc c => acc * 10 + (c - 48)) (u (NilEmpty.string_of_uint d)) (Z.pos acc)
    = Z.pos (Pos.of_uint_acc d acc).
Proof.
  induction d; intros acc; simpl NilEmpty.string_of_uint;
    rewrite ?u_cons, ?u_nil; cbn [fold_left Pos.of_uint_acc]; [reflexivity| ..];
    rewrite <- IHd; f_equal; simpl (Z.of_N (N_of_ascii _)); lia.
Qed.

Lemma digits_value_uint d :
  json.digits_value (u (NilEmpty.string_of_uint d)) = Z.of_N (Pos.of_uint d).
Proof.
  unfold json.digits_value.
  induction d; simpl NilEmpty.string_of_uint;
    rewrite ?u_cons, ?u_nil; cbn [fold_left Pos.of_uint]; [reflexivity| exact IHd | ..];
    cbn [Z.of_N]; rewrite <- digits_value_acc; reflexivity.
Qed.

Lemma str_int_cases n :
  str_int n =
  match n with
  | 0 => [48]
  | Z.pos p => u (NilEmpty.string_of_uint (Pos.to_uint p))
  | Z.neg p => 45 :: u (NilEmpty.string_of_uint (Pos.to_uint p))
  end.
Proof.
  destruct n as [|p|p]; unfold str_int; cbn [Z.to_int NilZero.string_of_int];
    [reflexivity| |rewrite u_cons; f_equal];
    pose proof (DecimalPos.Unsigned.to_uint_nonnil p) as Hn;
    destruct (Pos.to_uint p); try reflexivity; contradiction.
Qed.

(** The number a run of digits denotes has no more digits than the run. *)
Lemma digit_count_digits ds :
  ds <> [] ->
  forallb json.is_digit ds = true ->
  (digit_count (json.digits_value ds) <= List.length ds)%nat /\
  (digit_count (- json.digits_value ds) <= List.length ds)%nat.
Proof.
  intros Hne Hds. destruct (digits_uint ds Hds) as [d <-].
  assert (Hd : d <> Decimal.Nil) by (intros ->; now apply Hne).
  rewrite digits_value_uint, string_of_uint_length.
  assert (H : (digit_count (Z.of_N (Pos.of_uint d)) <= Decimal.nb_digits d)%nat).
  { unfold digit_count.
    pose proof (DecimalPos.Unsigned.to_of d) as Hto.
    pose proof (DecimalFacts.nb_digits_unorm d Hd) as Hle.
    destruct (Pos.of_uint d) as [|p].
    - cbn [Z.of_N Z.abs]. rewrite str_int_cases. simpl List.length.
      destruct (Decimal.nb_digits d) eqn:E; [|lia].
      now apply DecimalFacts.nb_digits_0 in E.
    - cbn [Z.of_N Z.abs N.to_uint] in *.
      rewrite str_int_cases, string_of_uint_length, Hto. exact Hle. }
  split; [exact H|].
  unfold digit_count in *. now rewrite Z.abs_opp.
Qed.

Lemma match_number_spec s res r :
  json.match_number s = Some (res, r) ->
  (List.length r < List.length s)%nat /\
  (forall v, res = Ok v -> str_returns v = true).
Proof.
  unfold json.match_number.
  set (sign_s1 := match s with
                  | c :: r0 => if c =? 45 then ([45], r0) else ([], s)
                  | [] => ([], s)
                  end).
  assert (Hs1 : (List.length (snd sign_s1) <= List.length s)%nat).
  { subst sign_s1. destruct s as [|c r0]; [simpl; lia|].
    destruct (c =? 45); simpl; lia. }
  destruct sign_s1 as [sign s1]. simpl in Hs1.
  destruct s1 as [|c r1]; [discriminate|].
  destruct (json.is_digit c) eqn:Hc; [|discriminate].
  set (int_s2 := if c =? 48 then ([c], r1)
                 else let (ds, rest) := json.span_digits r1 in (c :: ds, rest)).
  assert (Hs2 : (List.length (snd int_s2) <= List.length r1)%nat /\
                fst int_s2 <> [] /\
                forallb json.is_digit (fst int_s2) = true).
  { subst int_s2. destruct (c =? 48).
    - simpl. rewrite Hc. repeat split; [lia | discriminate].
    - pose proof (span_digits_length r1) as Hl.
      pose proof (span_digits_digits r1) as Hd.
      destruct (json.span_digits r1). simpl in *. rewrite Hc, Hd.
      repeat split; [exact Hl | discriminate]. }
  destruct int_s2 as [int_part s2]. simpl in Hs2.
  destruct Hs2 as (Hs2 & Hne & Hdigits).
  set (frac_s3 := match s2 with
                  | d :: r2 =>
                      if d =? 46 then
                        match json.span_digits r2 with
                        | ([], _) => ([], s2)
                        | (ds, rest) => (d :: ds, rest)
                        end
                      else ([], s2)
                  | [] => ([], s2)
                  end).
  assert (Hs3 : (List.length (snd frac_s3) <= List.length s2)%nat).
  { subst frac_s3. destruct s2 as [|d r2]; [simpl; lia|].
    destruct (d =? 46); [|simpl; lia].
    pose proof (span_digits_length r2) as Hl.
    destruct (json.span_digits r2) as [[|x ds] rest]; simpl in *; lia. }
  destruct frac_s3 as [frac s3]. simpl in Hs3.
  set (exp_s4 := match s3 with
                 | e :: r3 =>
                     if (e =? 101) || (e =? 69) then
                       let '(esign, r4) :=
                         match r3 with
                         | g :: r3' =>
                             if (g =? 45) || (g =? 43) then ([g], r3')
                             else ([], r3)
                         | [] => ([], r3)
                         end in
                       match json.span_digits r4 with
                       | ([], _) => ([], s3)
                       | (ds, rest) => (e :: esign ++ ds, rest)
                       end
                     else ([], s3)
                 | [] => ([], s3)
                 end).
  assert (Hs4 : (List.length (snd exp_s4) <= List.length s3)%nat).
  { subst exp_s4. destruct s3 as [|e r3]; [simpl; lia|].
    destruct ((e =? 101) || (e =? 69)); [|simpl; lia].
    destruct r3 as [|g r3'].
    - simpl. lia.
    - destruct ((g =? 45) || (g =? 43)).
      + pose proof (span_digits_length r3') as Hl.
        destruct (json.span_digits r3') as [[|x ds] rest]; simpl in *; lia.
      + pose proof (span_digits_length (g :: r3')) as Hl.
        destruct (json.span_digits (g :: r3')) as [[|x ds] rest];
          simpl in *; lia. }
  destruct exp_s4 as [exp s4]. simpl in Hs4.
  intros H.
  destruct (digit_count_digits int_part Hne Hdigits) as [Hpos Hneg].
  assert (Hr : r = s4 /\ forall v, res = Ok v -> str_returns v = true).
  { destruct frac, exp;
      try (injection H as <- <-; split; [reflexivity|];
           intros v Hv; injection Hv as <-; reflexivity).
    destruct (int_max_str_digits <? List.length int_part)%nat eqn:El;
      injection H as <- <-; (split; [reflexivity|]); intros v Hv;
      [discriminate|].
    injection Hv as <-. apply Nat.ltb_ge in El.
    cbn [str_returns]. apply Nat.leb_le. destruct sign; lia. }
  destruct Hr as [-> Hv]. split; [simpl in *; lia | exact Hv].
Qed.

Lemma match_number_length s res r :
  json.match_number s = Some (res, r) ->
  (List.length r < List.length s)%nat.
Proof. intros H. now apply match_number_spec in H. Qed.

Lemma decode_uXXXX_length s v r :
  json.decode_uXXXX s = Ok (v, r) -> List.length s = (4 + List.length r)%nat.
Proof.
  unfold json.decode_uXXXX.
  destruct s as [|c1 [|c2 [|c3 [|c4 r0]]]]; try discriminate.
  destruct (json.hex_val c1), (json.hex_val c2), (json.hex_val c3),
    (json.hex_val c4); try discriminate.
  intros H. injection H as _ <-. reflexivity.
Qed.

Lemma scanstring_from_length : forall fuel s chars r,
  json.scanstring_from fuel s = Ok (chars, r) ->
  (List.length r < List.length s)%nat.
Proof.
  induction fuel as [|fuel IH]; intros s chars r H; [discriminate|].
  cbn [json.scanstring_from] in H.
  destruct s as [|c s]; [discriminate|].
  destruct (c =? 34); [injection H as _ <-; simpl; lia|].
  destruct (c =? 92).
  - destruct s as [|e r1]; [discriminate|].
    destruct (e =? 117).
    + destruct (json.decode_uXXXX r1) as [[uni r2]|] eqn:E1; [|discriminate].
      apply decode_uXXXX_length in E1. cbn [rbind] in H.
      assert (Hr3 : forall ch r3,
                 (List.length r3 <= List.length r2)%nat ->
                 ('(chars0, rest) <- json.scanstring_from fuel r3 ;;
                  Ok (ch :: chars0, rest))%result = Ok (chars, r) ->
                 (List.length r < List.length (c :: e :: r1))%nat).
      { intros ch r3 Hle H3.
        destruct (json.scanstring_from fuel r3) as [[chars0 rest]|] eqn:E3;
          [|discriminate].
        cbn [rbind] in H3. injection H3 as _ <-.
        apply IH in E3. simpl. lia. }
      destruct (between 55296 56319 uni).
      * destruct (json.strip_prefix [92; 117] r2) as [r2'|] eqn:E2.
        -- apply strip_prefix_length in E2.
           destruct (json.decode_uXXXX r2') as [[uni2 r2'']|] eqn:E4;
             [|discriminate].
           apply decode_uXXXX_length in E4. cbn [rbind] in H.
           destruct (between 56320 57343 uni2); cbn [rbind] in H;
             eapply Hr3; try exact H; simpl in *; lia.
        -- cbn [rbind] in H. eapply Hr3; try exact H; lia.
      * cbn [rbind] in H. eapply Hr3; try exact H; lia.
    + destruct (json.backslash e); [|discriminate].
      destruct (json.scanstring_from fuel r1) as [[chars0 rest]|] eqn:E3;
        [|discriminate].
      cbn [rbind] in H. injection H as _ <-. apply IH in E3. simpl. lia.
  - destruct (c <? 32); [discriminate|].
    destruct (json.scanstring_from fuel s) as [[chars0 rest]|] eqn:E3;
      [|discriminate].
    cbn [rbind] in H. injection H as _ <-. apply IH in E3. simpl. lia.
Qed.

Lemma scanstring_at_length depth s chars r :
  json.scanstring_at depth s = Ok (chars, r) ->
  (List.length r < List.length s)%nat.
Proof.
  unfold json.scanstring_at, json.scanstring.
  destruct (json.scanstring_from (S (List.length s)) s) as [[chars0 r0]|x] eqn:E.
  - intros H. injection H as _ <-. now apply scanstring_from_length in E.
  - destruct x; discriminate.
Qed.

Lemma strip_prefix_shorter p s r :
  p <> [] -> json.strip_prefix p s = Some r ->
  (List.length r < List.length s)%nat.
Proof.
  intros Hp H. apply strip_prefix_length in H.
  destruct p; [contradiction | simpl in H; lia].
Qed.

(** A value that is read takes at least one character. *)
Lemma scan_rest_length : forall fuel,
  (forall d s v r,
     json.scan_once fuel d s = Ok (v, r) ->
     (List.length r < List.length s)%nat) /\
  (forall d s acc v r,
     json.JSONArray fuel d s acc = Ok (v, r) ->
     (List.length r < List.length s)%nat) /\
  (forall d s acc v r,
     json.JSONObject fuel d s acc = Ok (v, r) ->
     (List.length r < List.length s)%nat).
Proof.
  induction fuel as [|fuel (IHs & IHa & IHo)];
    [repeat split; intros; discriminate|].
  split; [|split].
  - intros d s v r H. cbn [json.scan_once] in H.
    destruct s as [|c r0]; [discriminate|].
    destruct (c =? 34).
    { destruct (json.scanstring_at d r0) as [[chars rest]|] eqn:E;
        [|discriminate].
      cbn [rbind] in H. injection H as _ <-.
      apply scanstring_at_length in E. simpl. lia. }
    destruct (c =? 123).
    { destruct d as [|d]; [discriminate|]. cbv zeta in H.
      pose proof (skip_ws_length r0) as Hl.
      destruct (json.skip_ws r0) as [|d0 r1]; [discriminate|].
      destruct (d0 =? 125); [injection H as _ <-; simpl in *; lia|].
      destruct (d0 =? 34); [|discriminate].
      apply IHo in H. simpl in *. lia. }
    destruct (c =? 91).
    { destruct d as [|d]; [discriminate|]. cbv zeta in H.
      pose proof (skip_ws_length r0) as Hl.
      destruct (json.skip_ws r0) as [|d0 r1]; [discriminate|].
      destruct (d0 =? 93); [injection H as _ <-; simpl in *; lia|].
      apply IHa in H. simpl in *. lia. }
    destruct (json.strip_prefix (u "null") (c :: r0)) as [rest|] eqn:E1.
    { injection H as _ <-.
      apply strip_prefix_shorter in E1; [exact E1 | discriminate]. }
    destruct (json.strip_prefix (u "true") (c :: r0)) as [rest|] eqn:E2.
    { injection H as _ <-.
      apply strip_prefix_shorter in E2; [exact E2 | discriminate]. }
    destruct (json.strip_prefix (u "false") (c :: r0)) as [rest|] eqn:E3.
    { injection H as _ <-.
      apply strip_prefix_shorter in E3; [exact E3 | discriminate]. }
    destruct (json.match_number (c :: r0)) as [[res rest]|] eqn:E4.
    { apply match_number_length in E4.
      destruct res as [v0|]; [|discriminate].
      cbn [rbind] in H. injection H as _ <-. exact E4. }
    destruct (json.strip_prefix (u "NaN") (c :: r0)) as [rest|] eqn:E5.
    { injection H as _ <-.
      apply strip_prefix_shorter in E5; [exact E5 | discriminate]. }
    destruct (json.strip_prefix (u "Infinity") (c :: r0)) as [rest|] eqn:E6.
    { injection H as _ <-.
      apply strip_prefix_shorter in E6; [exact E6 | discriminate]. }
    destruct (json.strip_prefix (u "-Infinity") (c :: r0)) as [rest|] eqn:E7;
      [|discriminate].
    injection H as _ <-.
    apply strip_prefix_shorter in E7; [exact E7 | discriminate].
  - intros d s acc v r H. cbn [json.JSONArray] in H.
    destruct (json.scan_once fuel d s) as [[v0 r0]|] eqn:E; [|discriminate].
    cbn [rbind] in H. apply IHs in E.
    pose proof (skip_ws_length r0) as Hl.
    destruct (json.skip_ws r0) as [|d0 r1]; [discriminate|].
    destruct (d0 =? 93); [injection H as _ <-; simpl in *; lia|].
    destruct (d0 =? 44); [|discriminate].
    apply IHa in H. pose proof (skip_ws_length r1). simpl in *. lia.
  - intros d s acc v r H. cbn [json.JSONObject] in H.
    destruct (json.scanstring_at d s) as [[key r0]|] eqn:E; [|discriminate].
    cbn [rbind] in H. apply scanstring_at_length in E.
    pose proof (skip_ws_length r0) as Hl0.
    destruct (json.skip_ws r0) as [|c r1]; [discriminate|].
    destruct (c =? 58); [|discriminate].
    destruct (json.scan_once fuel d (json.skip_ws r1)) as [[v0 r2]|] eqn:E2;
      [|discriminate].
    cbn [rbind] in H. cbv zeta in H. apply IHs in E2.
    pose proof (skip_ws_length r1) as Hl1.
    pose proof (skip_ws_length r2) as Hl2.
    destruct (json.skip_ws r2) as [|d0 r3]; [discriminate|].
    destruct (d0 =? 125); [injection H as _ <-; simpl in *; lia|].
    destruct (d0 =? 44); [|discriminate].
    pose proof (skip_ws_length r3) as Hl3.
    destruct (json.skip_ws r3) as [|q r4]; [discriminate|].
    destruct (q =? 34); [|discriminate].
    apply IHo in H. simpl in *. lia.
Qed.

(** The fuel [loads] gives the scanner is enough: from twice the length of
    the text and one on, more fuel changes nothing. *)
Lemma scan_fuel_enough : forall f1,
  (forall f2 d s,
     (2 * List.length s + 1 <= f1)%nat -> (2 * List.length s + 1 <= f2)%nat ->
     json.scan_once f1 d s = json.scan_once f2 d s) /\
  (forall f2 d s acc,
     (2 * List.length s + 2 <= f1)%nat -> (2 * List.length s + 2 <= f2)%nat ->
     json.JSONArray f1 d s acc = json.JSONArray f2 d s acc) /\
  (forall f2 d s acc,
     (2 * List.length s + 1 <= f1)%nat -> (2 * List.length s + 1 <= f2)%nat ->
     json.JSONObject f1 d s acc = json.JSONObject f2 d s acc).
Proof.
  induction f1 as [|f1 (IHs & IHa & IHo)];
    [repeat split; intros; lia|].
  split; [|split].
  - intros [|f2] d s H1 H2; [lia|]. cbn [json.scan_once].
    destruct s as [|c r0]; [reflexivity|].
    destruct (c =? 34); [reflexivity|].
    destruct (c =? 123).
    { destruct d as [|d]; [reflexivity|]. cbv zeta.
      pose proof (skip_ws_length r0) as Hl.
      destruct (json.skip_ws r0) as [|d0 r1]; [reflexivity|].
      destruct (d0 =? 125); [reflexivity|].
      destruct (d0 =? 34); [|reflexivity].
      apply IHo; simpl in *; lia. }
    destruct (c =? 91); [|reflexivity].
    destruct d as [|d]; [reflexivity|]. cbv zeta.
    pose proof (skip_ws_length r0) as Hl.
    destruct (json.skip_ws r0) as [|d0 r1]; [reflexivity|].
    destruct (d0 =? 93); [reflexivity|].
    apply IHa; simpl in *; lia.
  - intros [|f2] d s acc H1 H2; [lia|]. cbn [json.JSONArray].
    rewrite (IHs f2 d s) by lia.
    destruct (json.scan_once f2 d s) as [[v0 r0]|] eqn:E; [|reflexivity].
    cbn [rbind]. apply (proj1 (scan_rest_length f2)) in E.
    pose proof (skip_ws_length r0) as Hl.
    destruct (json.skip_ws r0) as [|d0 r1]; [reflexivity|].
    destruct (d0 =? 93); [reflexivity|].
    destruct (d0 =? 44); [|reflexivity].
    pose proof (skip_ws_length r1).
    apply IHa; simpl in *; lia.
  - intros [|f2] d s acc H1 H2; [lia|]. cbn [json.JSONObject].
    destruct (json.scanstring_at d s) as [[key r0]|] eqn:E; [|reflexivity].
    cbn [rbind]. apply scanstring_at_length in E.
    pose proof (skip_ws_length r0) as Hl0.
    destruct (json.skip_ws r0) as [|c r1]; [reflexivity|].
    destruct (c =? 58); [|reflexivity].
    pose proof (skip_ws_length r1) as Hl1.
    rewrite (IHs f2 d (json.skip_ws r1)) by (simpl in *; lia).
    destruct (json.scan_once f2 d (json.skip_ws r1)) as [[v0 r2]|] eqn:E2;
      [|reflexivity].
    cbn [rbind]. cbv zeta. apply (proj1 (scan_rest_length f2)) in E2.
    pose proof (skip_ws_length r2) as Hl2.
    destruct (json.skip_ws r2) as [|d0 r3]; [reflexivity|].
    destruct (d0 =? 125); [reflexivity|].
    destruct (d0 =? 44); [|reflexivity].
    pose proof (skip_ws_length r3) as Hl3.
    destruct (json.skip_ws r3) as [|q r4]; [reflexivity|].
    destruct (q =? 34); [|reflexivity].
    apply IHo; simpl in *; lia.
Qed.

Lemma scan_once_fuel fuel depth s :
  (2 * List.length s + 1 <= fuel)%nat ->
  json.scan_once fuel depth s
    = json.scan_once (2 * List.length s + 2) depth s.
Proof.
  intros H. apply (proj1 (scan_fuel_enough fuel)); lia.
Qed.

(* ================================================================== *)
(** ** What the decoder answers can be converted to text *)

Lemma dict_set_converts kvs k v :
  forallb (fun kv => str_returns (snd kv)) kvs = true ->
  str_returns v = true ->
  forallb (fun kv => str_returns (snd kv)) (dict_set kvs k v) = true.
Proof.
  intros Hkvs Hv. induction kvs as [|[k' v'] kvs IH]; simpl.
  - now rewrite Hv.
  - simpl in Hkvs. apply andb_true_iff in Hkvs as [Hv' Hrest].
    destruct (pystr_eqb k' k); simpl.
    + now rewrite Hv, Hrest.
    + now rewrite Hv', (IH Hrest).
Qed.

Lemma dict_get_converts kvs k v :
  forallb (fun kv => str_returns (snd kv)) kvs = true ->
  dict_get kvs k = Some v ->
  str_returns v = true.
Proof.
  induction kvs as [|[k' v'] kvs IH]; simpl; [discriminate|].
  intros H Hget. apply andb_true_iff in H as [Hv' Hrest].
  destruct (pystr_eqb k' k); [injection Hget as <-; exact Hv' | now apply IH].
Qed.

Lemma forallb_rev {A} (p : A -> bool) l :
  forallb p l = true -> forallb p (rev l) = true.
Proof.
  rewrite !forallb_forall. intros H x Hx. apply H. now apply in_rev.
Qed.

(** No integer the scanner answers has more digits than [str] converts. *)
Lemma scan_converts : forall fuel,
  (forall d s v r,
     json.scan_once fuel d s = Ok (v, r) -> str_returns v = true) /\
  (forall d s acc v r,
     forallb str_returns acc = true ->
     json.JSONArray fuel d s acc = Ok (v, r) -> str_returns v = true) /\
  (forall d s acc v r,
     forallb (fun kv => str_returns (snd kv)) acc = true ->
     json.JSONObject fuel d s acc = Ok (v, r) -> str_returns v = true).
Proof.
  induction fuel as [|fuel (IHs & IHa & IHo)];
    [repeat split; intros; discriminate|].
  split; [|split].
  - intros d s v r H. cbn [json.scan_once] in H.
    destruct s as [|c r0]; [discriminate|].
    destruct (c =? 34).
    { destruct (json.scanstring_at d r0) as [[chars rest]|]; [|discriminate].
      cbn [rbind] in H. injection H as <- _. reflexivity. }
    destruct (c =? 123).
    { destruct d as [|d]; [discriminate|]. cbv zeta in H.
      destruct (json.skip_ws r0) as [|d0 r1]; [discriminate|].
      destruct (d0 =? 125); [injection H as <- _; reflexivity|].
      destruct (d0 =? 34); [|discriminate].
      now apply IHo in H. }
    destruct (c =? 91).
    { destruct d as [|d]; [discriminate|]. cbv zeta in H.
      destruct (json.skip_ws r0) as [|d0 r1]; [discriminate|].
      destruct (d0 =? 93); [injection H as <- _; reflexivity|].
      now apply IHa in H. }
    destruct (json.strip_prefix (u "null") (c :: r0));
      [injection H as <- _; reflexivity|].
    destruct (json.strip_prefix (u "true") (c :: r0));
      [injection H as <- _; reflexivity|].
    destruct (json.strip_prefix (u "false") (c :: r0));
      [injection H as <- _; reflexivity|].
    destruct (json.match_number (c :: r0)) as [[res rest]|] eqn:E.
    { apply match_number_spec in E as [_ E].
      destruct res as [v0|]; [|discriminate].
      cbn [rbind] in H. injection H as <- _. now apply E. }
    destruct (json.strip_prefix (u "NaN") (c :: r0));
      [injection H as <- _; reflexivity|].
    destruct (json.strip_prefix (u "Infinity") (c :: r0));
      [injection H as <- _; reflexivity|].
    destruct (json.strip_prefix (u "-Infinity") (c :: r0)); [|discriminate].
    injection H as <- _. reflexivity.
  - intros d s acc v r Hacc H. cbn [json.JSONArray] in H.
    destruct (json.scan_once fuel d s) as [[v0 r0]|] eqn:E; [|discriminate].
    cbn [rbind] in H. apply IHs in E.
    assert (Hacc' : forallb str_returns (v0 :: acc) = true)
      by (simpl; now rewrite E, Hacc).
    destruct (json.skip_ws r0) as [|d0 r1]; [discriminate|].
    destruct (d0 =? 93).
    { injection H as <- _. exact (forallb_rev _ (v0 :: acc) Hacc'). }
    destruct (d0 =? 44); [|discriminate].
    now apply IHa in H.
  - intros d s acc v r Hacc H. cbn [json.JSONObject] in H.
    destruct (json.scanstring_at d s) as [[key r0]|]; [|discriminate].
    cbn [rbind] in H.
    destruct (json.skip_ws r0) as [|c r1]; [discriminate|].
    destruct (c =? 58); [|discriminate].
    destruct (json.scan_once fuel d (json.skip_ws r1)) as [[v0 r2]|] eqn:E2;
      [|discriminate].
    cbn [rbind] in H. cbv zeta in H. apply IHs in E2.
    pose proof (dict_set_converts acc key v0 Hacc E2) as Hacc'.
    destruct (json.skip_ws r2) as [|d0 r3]; [discriminate|].
    destruct (d0 =? 125); [injection H as <- _; exact Hacc'|].
    destruct (d0 =? 44); [|discriminate].
    destruct (json.skip_ws r3) as [|q r4]; [discriminate|].
    destruct (q =? 34); [|discriminate].
    now apply IHo in H.
Qed.

Lemma loads_converts s v : loads s = Ok v -> str_returns v = true.
Proof.
  unfold loads, json.loads. intros H.
  assert (Hscan : forall s',
             ('(v0, rest) <-
                json.scan_once (2 * List.length s' + 2) json.max_nesting s' ;;
              match json.skip_ws rest with
              | [] => Ok v0
              | _ :: _ => Error JSONDecodeError
              end)%result = Ok v ->
             str_returns v = true).
  { intros s' H'.
    destruct (json.scan_once (2 * List.length s' + 2) json.max_nesting s')
      as [[v0 rest]|] eqn:E; [|discriminate].
    cbn [rbind] in H'. apply (proj1 (scan_converts _)) in E.
    destruct (json.skip_ws rest); [|discriminate].
    now injection H' as <-. }
  destruct s as [|c s0]; [now apply Hscan in H|].
  destruct c as [|p|p]; try (now apply Hscan in H).
  repeat (destruct p as [p|p|]; try (now apply Hscan in H)).
  discriminate.
Qed.

(** Every identifier the extractor returns can be converted to text: the
    decoder has refused the integers with too many digits already. *)
Lemma format_converts raw prs :
  format raw = Ok prs -> forallb str_returns prs = true.
Proof.
  unfold format. intros H.
  destruct (decode_utf8 raw) as [text|]; [|discriminate]. cbn [rbind] in H.
  destruct (loads text) as [v|] eqn:Ev; [|discriminate]. cbn [rbind] in H.
  apply loads_converts in Ev.
  destruct (py_iter v) as [items|] eqn:Ei; [|discriminate]. cbn [rbind] in H.
  assert (Hitems : forallb str_returns items = true).
  { destruct v; try discriminate; cbn [py_iter] in Ei; injection Ei as <-.
    - apply forallb_forall. intros x Hx.
      apply in_map_iff in Hx as (c & <- & _). reflexivity.
    - exact Ev.
    - apply forallb_forall. intros x Hx.
      apply in_map_iff in Hx as (kv & <- & _). reflexivity. }
  clear Ei Ev. revert prs H.
  induction items as [|item items IH]; intros prs H; simpl in H.
  - now injection H as <-.
  - simpl in Hitems. apply andb_true_iff in Hitems as [Hitem Hrest].
    destruct (py_getitem item (u "number")) as [x|] eqn:Ex; [|discriminate].
    cbn [rbind] in H.
    destruct (rmapM (fun pr => py_getitem pr (u "number")) items) as [xs|];
      [|discriminate].
    cbn [rbind] in H. injection H as <-. simpl.
    rewrite (IH Hrest xs eq_refl), andb_true_r.
    destruct item; try discriminate. cbn [py_getitem] in Ex.
    cbn [str_returns] in Hitem.
    destruct (dict_get kvs (u "number")) as [y|] eqn:Ey; [|discriminate].
    injection Ex as <-. exact (dict_get_converts _ _ _ Hitem Ey).
Qed.

(** The text of the number a literal denotes is the literal, when it
    begins with a digit other than zero; so it has as many digits. *)
Lemma str_int_digits c ds :
  49 <= c <= 57 ->
  forallb json.is_digit ds = true ->
  str_int (json.digits_value (c :: ds)) = c :: ds /\
  digit_count (json.digits_value (c :: ds)) = S (List.length ds).
Proof.
  intros Hc Hds. destruct (digits_uint ds Hds) as [d <-].
  assert (Hd : exists d', c :: u (NilEmpty.string_of_uint d)
                          = u (NilEmpty.string_of_uint d') /\
                          Decimal.unorm d' = d' /\ d' <> Decimal.Nil).
  { assert (Hcs : c = 49 \/ c = 50 \/ c = 51 \/ c = 52 \/ c = 53 \/
                  c = 54 \/ c = 55 \/ c = 56 \/ c = 57) by lia.
    destruct Hcs as [->|[->|[->|[->|[->|[->|[->|[->| ->]]]]]]]];
      [ exists (Decimal.D1 d) | exists (Decimal.D2 d) | exists (Decimal.D3 d)
      | exists (Decimal.D4 d) | exists (Decimal.D5 d) | exists (Decimal.D6 d)
      | exists (Decimal.D7 d) | exists (Decimal.D8 d) | exists (Decimal.D9 d) ];
      (split; [reflexivity | split; [reflexivity | discriminate]]). }
  destruct Hd as (d' & Heq & Hnorm & Hnil).
  rewrite Heq, digits_value_uint.
  pose proof (DecimalPos.Unsigned.to_of d') as Hto. rewrite Hnorm in Hto.
  assert (Htext : str_int (Z.of_N (Pos.of_uint d'))
                  = u (NilEmpty.string_of_uint d')).
  { destruct (Pos.of_uint d') as [|p]; cbn [Z.of_N N.to_uint] in *.
    - rewrite <- Hto. reflexivity.
    - now rewrite str_int_cases, Hto. }
  split; [exact Htext|].
  unfold digit_count. rewrite Z.abs_eq by apply N2Z.is_nonneg.
  rewrite Htext, <- Heq. reflexivity.
Qed.

(** The number written as 1 and 4300 zeros has 4301 digits and [str]
    refuses it; the one written as 4300 nines is converted. *)
Example str_refuses_4301_digits :
  str_returns (PyInt (json.digits_value (49 :: repeat 48 4300))) = false /\
  str_returns (PyInt (json.digits_value (57 :: repeat 57 4299))) = true.
Proof.
  assert (Hrep : forall c n, json.is_digit c = true ->
                             forallb json.is_digit (repeat c n) = true).
  { intros c n Hc. induction n as [|n IH]; simpl; [reflexivity|].
    now rewrite Hc, IH. }
  cbn [str_returns].
  rewrite (proj2 (str_int_digits 49 (repeat 48 4300) ltac:(lia)
                    (Hrep 48 4300%nat eq_refl))).
  rewrite (proj2 (str_int_digits 57 (repeat 57 4299) ltac:(lia)
                    (Hrep 57 4299%nat eq_refl))).
  rewrite !repeat_length. split; reflexivity.
Qed.
Lemma pmapM_app {A B} (g : A -> prog B) : forall xs ys tr,
  pmapM g (xs ++ ys) tr =
  match pmapM g xs tr with
  | (Ok bs, tr1) =>
      let (r, tr2) := pmapM g ys tr1 in (rmap (app bs) r, tr2)
  | (Error x, tr1) => (Error x, tr1)
  end.
Proof.
  induction xs as [|a xs IH]; intros ys tr.
  - simpl. unfold ret. destruct (pmapM g ys tr) as [[cs|x] tr2]; reflexivity.
  - simpl. unfold bind, ret. destruct (g a tr) as [[y|x] tr0]; [|reflexivity].
    rewrite IH.
    destruct (pmapM g xs tr0) as [[bs|x] tr1]; [|reflexivity].
    destruct (pmapM g ys tr1) as [[cs|x] tr2]; reflexivity.
Qed.


Lemma pmapM_cons {A B} (g : A -> prog B) x xs tr :
  pmapM g (x :: xs) tr =
  match g x tr with
  | (Ok y, tr1) =>
      match pmapM g xs tr1 with
      | (Ok ys, tr2) => (Ok (y :: ys), tr2)
      | (Error e, tr2) => (Error e, tr2)
      end
  | (Error e, tr1) => (Error e, tr1)
  end.
Proof.
  simpl. unfold bind, ret. destruct (g x tr) as [[y|e] tr1]; reflexivity.
Qed.

(* ================================================================== *)
(** ** The commenter *)

Section Commenter.

Variable w : world.
Variables repo f : pystr.

(** One turn of the generator: nothing happens when the identifier cannot
    be converted; otherwise the tool is asked once, whatever it answers. *)
Lemma comment_one_eq pr tr :
  comment_one w repo f pr tr =
  if str_returns pr
  then (stdout_text (tool w tr (comment_argv w pr repo f)),
        tr ++ [EvRun (comment_argv w pr repo f)
                     (tool w tr (comment_argv w pr repo f))])
  else (Error ValueError, tr).
Proof.
  unfold comment_one, str_of, bind, run, lift.
  destruct (str_returns pr); [|reflexivity].
  destruct (tool w tr (comment_argv w pr repo f)); reflexivity.
Qed.

Lemma comment_eq prs tr :
  comment w prs repo f tr =
  (let (r, tr') := pmapM (comment_one w repo f) prs tr in
   (rmap (@List.concat Z) r, tr')).
Proof.
  unfold comment, bind, ret, rmap, rbind.
  destruct (pmapM (comment_one w repo f) prs tr) as [[texts|x] tr'];
    reflexivity.
Qed.

Lemma comment_events_no_print prs outs line :
  ~ In (EvPrint line) (comment_events w repo f prs outs).
Proof.
  unfold comment_events. intros H. apply in_map_iff in H as (po & Hpo & _).
  discriminate.
Qed.

(** The generator in any world: it asks the tool about a prefix of [prs],
    in order, and returns only after asking about all of them. *)
Lemma pmapM_comment_one : forall prs tr,
  exists outs,
    (List.length outs <= List.length prs)%nat /\
    snd (pmapM (comment_one w repo f) prs tr)
      = tr ++ comment_events w repo f prs outs /\
    (forall texts, fst (pmapM (comment_one w repo f) prs tr) = Ok texts ->
                   List.length outs = List.length prs).
Proof.
  induction prs as [|pr prs IH]; intros tr.
  - exists []. simpl. unfold comment_events. simpl.
    rewrite app_nil_r. auto.
  - rewrite pmapM_cons, comment_one_eq.
    destruct (str_returns pr).
    2:{ exists []. simpl. unfold comment_events. simpl.
        rewrite app_nil_r. split; [lia|].
        split; [reflexivity | intros ? HH; discriminate HH]. }
    set (argv := comment_argv w pr repo f).
    set (out := tool w tr argv).
    destruct (stdout_text out) as [text|x].
    + destruct (IH (tr ++ [EvRun argv out])) as (outs & Hlen & Htr & Hfull).
      exists (out :: outs). split; [simpl; lia|].
      destruct (pmapM (comment_one w repo f) prs (tr ++ [EvRun argv out]))
        as [[ys|y] tr'] eqn:E; simpl in Htr, Hfull; simpl; subst tr';
        (split; [unfold comment_events; simpl; fold argv;
                 fold (comment_events w repo f prs outs);
                 now rewrite <- app_assoc |]).
      * intros _ _. f_equal. now apply (Hfull ys).
      * intros ? HH; discriminate HH.
    + exists [out]. split; [simpl; lia|]. simpl.
      split; [|intros ? HH; discriminate HH].
      unfold comment_events. simpl. destruct prs; reflexivity.
Qed.

(** The commenter followed by the marker, as [main] has them. *)
Lemma bind_comment_print prs tr :
  exists outs,
    (List.length outs <= List.length prs)%nat /\
    ((exists s,
        comment w prs repo f tr
          = (Ok s, tr ++ comment_events w repo f prs outs) /\
        List.length outs = List.length prs /\
        (_ <- comment w prs repo f ;; print (u "Done"))%prog tr
          = (Ok tt, tr ++ comment_events w repo f prs outs
                       ++ [EvPrint (u "Done")])) \/
     (exists x,
        comment w prs repo f tr
          = (Error x, tr ++ comment_events w repo f prs outs) /\
        (_ <- comment w prs repo f ;; print (u "Done"))%prog tr
          = (Error x, tr ++ comment_events w repo f prs outs))).
Proof.
  destruct (pmapM_comment_one prs tr) as (outs & Hlen & Htr & Hfull).
  exists outs. split; [exact Hlen|].
  unfold bind at 1 2. rewrite comment_eq.
  destruct (pmapM (comment_one w repo f) prs tr) as [[texts|x] tr'];
    simpl in Htr, Hfull; subst tr'; simpl.
  - left. exists (List.concat texts). split; [reflexivity|].
    split; [now apply (Hfull texts)|]. unfold print. now rewrite <- app_assoc.
  - right. exists x. split; reflexivity.
Qed.

(** The tool's answers and the events they leave, on a list in two parts. *)
Lemma tool_answers_length : forall prs tr,
  List.length (tool_answers w repo f prs tr) = List.length prs.
Proof.
  induction prs as [|pr prs IH]; intros tr; [reflexivity|].
  simpl. now rewrite IH.
Qed.

Lemma comment_events_app xs ys oxs oys :
  List.length oxs = List.length xs ->
  comment_events w repo f (xs ++ ys) (oxs ++ oys)
    = comment_events w repo f xs oxs ++ comment_events w repo f ys oys.
Proof.
  revert oxs. unfold comment_events.
  induction xs as [|x xs IH]; intros [|o oxs] Hlen; try discriminate.
  - reflexivity.
  - simpl. f_equal. apply IH. now injection Hlen.
Qed.

Lemma tool_answers_app : forall xs ys tr,
  tool_answers w repo f (xs ++ ys) tr
    = tool_answers w repo f xs tr
        ++ tool_answers w repo f ys
             (tr ++ comment_events w repo f xs (tool_answers w repo f xs tr)).
Proof.
  induction xs as [|x xs IH]; intros ys tr.
  - simpl. unfold comment_events. simpl. now rewrite app_nil_r.
  - cbn [app tool_answers]. cbv zeta. rewrite IH. cbn [app]. f_equal.
    unfold comment_events at 2. cbn [combine map fst snd].
    fold (comment_events w repo f xs
            (tool_answers w repo f xs
               (tr ++ [EvRun (comment_argv w x repo f)
                             (tool w tr (comment_argv w x repo f))]))).
    now rewrite <- app_assoc.
Qed.

Lemma comment_events_answers_app xs ys tr :
  comment_events w repo f (xs ++ ys) (tool_answers w repo f (xs ++ ys) tr)
    = comment_events w repo f xs (tool_answers w repo f xs tr)
        ++ comment_events w repo f ys
             (tool_answers w repo f ys
                (tr ++ comment_events w repo f xs (tool_answers w repo f xs tr))).
Proof.
  rewrite tool_answers_app. apply comment_events_app. apply tool_answers_length.
Qed.

(** The generator when every identifier converts and every answer is text. *)
Lemma pmapM_comment_one_completes : forall prs tr texts,
  forallb str_returns prs = true ->
  rmapM stdout_text (tool_answers w repo f prs tr) = Ok texts ->
  pmapM (comment_one w repo f) prs tr
    = (Ok texts,
       tr ++ comment_events w repo f prs (tool_answers w repo f prs tr)).
Proof.
  induction prs as [|pr prs IH]; intros tr texts Hstr Htexts.
  - simpl in *. injection Htexts as <-. unfold ret, comment_events. simpl.
    now rewrite app_nil_r.
  - simpl in Hstr. apply andb_true_iff in Hstr as [Hpr Hprs].
    cbn [tool_answers] in *. cbv zeta in *.
    set (argv := comment_argv w pr repo f) in *.
    set (out := tool w tr argv) in *.
    cbn [rmapM] in Htexts.
    destruct (stdout_text out) as [text|] eqn:Eout; [|discriminate].
    cbn [rbind] in Htexts.
    destruct (rmapM stdout_text
                (tool_answers w repo f prs (tr ++ [EvRun argv out])))
      as [ys|] eqn:Eys; [|discriminate].
    cbn [rbind] in Htexts. injection Htexts as <-.
    rewrite pmapM_cons, comment_one_eq, Hpr.
    fold argv. fold out. rewrite Eout.
    rewrite (IH _ ys Hprs Eys).
    unfold comment_events. cbn [combine map fst snd]. fold argv.
    now rewrite <- app_assoc.
Qed.

Lemma comment_events_one pr tr :
  comment_events w repo f [pr] (tool_answers w repo f [pr] tr)
    = [EvRun (comment_argv w pr repo f) (tool w tr (comment_argv w pr repo f))].
Proof. reflexivity. Qed.

Lemma tool_answers_cons pr prs tr :
  tool_answers w repo f (pr :: prs) tr
    = tool w tr (comment_argv w pr repo f)
        :: tool_answers w repo f prs
             (tr ++ [EvRun (comment_argv w pr repo f)
                           (tool w tr (comment_argv w pr repo f))]).
Proof. reflexivity. Qed.

Lemma comment_events_answers_cons pr prs tr :
  tr ++ comment_events w repo f (pr :: prs)
          (tool_answers w repo f (pr :: prs) tr)
    = (tr ++ [EvRun (comment_argv w pr repo f)
                    (tool w tr (comment_argv w pr repo f))])
        ++ comment_events w repo f prs
             (tool_answers w repo f prs
                (tr ++ [EvRun (comment_argv w pr repo f)
                              (tool w tr (comment_argv w pr repo f))])).
Proof.
  change (pr :: prs) with ([pr] ++ prs).
  rewrite comment_events_answers_app, comment_events_one.
  now rewrite app_assoc.
Qed.

(** Every list of identifiers falls under one of the three endings. *)
Lemma comment_ends_classify : forall prs tr,
  (exists texts,
     forallb str_returns prs = true /\
     rmapM stdout_text (tool_answers w repo f prs tr) = Ok texts) \/
  (exists done pr rest texts x,
     prs = done ++ pr :: rest /\
     forallb str_returns (done ++ [pr]) = true /\
     rmapM stdout_text (tool_answers w repo f done tr) = Ok texts /\
     stdout_text
       (tool w (tr ++ comment_events w repo f done
                        (tool_answers w repo f done tr))
             (comment_argv w pr repo f)) = Error x) \/
  (exists done pr rest texts,
     prs = done ++ pr :: rest /\
     forallb str_returns done = true /\
     str_returns pr = false /\
     rmapM stdout_text (tool_answers w repo f done tr) = Ok texts).
Proof.
  induction prs as [|pr prs IH]; intros tr.
  - left. exists []. split; reflexivity.
  - destruct (str_returns pr) eqn:Hpr.
    2:{ right. right. exists [], pr, prs, []. repeat split. exact Hpr. }
    destruct (stdout_text (tool w tr (comment_argv w pr repo f)))
      as [text|x] eqn:Eout.
    2:{ right. left. exists [], pr, prs, [], x. repeat split.
        - simpl. now rewrite Hpr.
        - unfold comment_events. simpl. rewrite app_nil_r. exact Eout. }
    destruct (IH (tr ++ [EvRun (comment_argv w pr repo f)
                               (tool w tr (comment_argv w pr repo f))]))
      as [(texts & Hstr & Htexts)
         |[(done & p & rest & texts & x & -> & Hstr & Htexts & Hx)
          |(done & p & rest & texts & -> & Hstr & Hp & Htexts)]].
    + left. exists (text :: texts). split.
      * simpl. now rewrite Hpr.
      * rewrite tool_answers_cons. cbn [rmapM]. rewrite Eout. cbn [rbind].
        rewrite Htexts. reflexivity.
    + right. left. exists (pr :: done), p, rest, (text :: texts), x.
      repeat split.
      * simpl. now rewrite Hpr.
      * rewrite tool_answers_cons. cbn [rmapM]. rewrite Eout. cbn [rbind].
        rewrite Htexts. reflexivity.
      * rewrite comment_events_answers_cons. exact Hx.
    + right. right. exists (pr :: done), p, rest, (text :: texts).
      repeat split.
      * simpl. now rewrite Hpr.
      * exact Hp.
      * rewrite tool_answers_cons. cbn [rmapM]. rewrite Eout. cbn [rbind].
        rewrite Htexts. reflexivity.
Qed.

(** Each ending fixes what the commenter returns and leaves behind. *)
Lemma comment_ends_sound prs tr res :
  comment_ends w repo f prs tr res -> comment w prs repo f tr = res.
Proof.
  intros [texts Hstr Htexts
         |done pr rest texts x -> Hstr Htexts Hx
         |done pr rest texts -> Hstr Hpr Htexts];
    rewrite comment_eq.
  - now rewrite (pmapM_comment_one_completes _ _ _ Hstr Htexts).
  - rewrite forallb_app in Hstr. apply andb_true_iff in Hstr as [Hdone Hpr].
    simpl in Hpr. rewrite andb_true_r in Hpr.
    rewrite pmapM_app, (pmapM_comment_one_completes _ _ _ Hdone Htexts).
    rewrite pmapM_cons, comment_one_eq, Hpr, Hx.
    rewrite comment_events_answers_app, comment_events_one.
    simpl. now rewrite app_assoc.
  - rewrite pmapM_app, (pmapM_comment_one_completes _ _ _ Hstr Htexts).
    rewrite pmapM_cons, comment_one_eq, Hpr. reflexivity.
Qed.

Lemma comment_ends_total prs tr :
  comment_ends w repo f prs tr (comment w prs repo f tr).
Proof.
  destruct (comment_ends_classify prs tr)
    as [(texts & Hstr & Htexts)
       |[(done & p & rest & texts & x & E & Hstr & Htexts & Hx)
        |(done & p & rest & texts & E & Hstr & Hp & Htexts)]].
  - rewrite (comment_ends_sound _ _ _ (ends_completed w repo f prs tr texts Hstr Htexts)).
    now apply ends_completed.
  - rewrite (comment_ends_sound _ _ _
               (ends_at_invocation w repo f prs tr done p rest texts x
                  E Hstr Htexts Hx)).
    now apply (ends_at_invocation w repo f prs tr done p rest texts x).
  - rewrite (comment_ends_sound _ _ _
               (ends_at_conversion w repo f prs tr done p rest texts
                  E Hstr Hp Htexts)).
    now apply (ends_at_conversion w repo f prs tr done p rest texts).
Qed.

(** The events of the invocations: one per element, each the command line
    of that element with the file and the repository as given. *)
Lemma comment_events_shape : forall prs tr,
  Forall2 (fun pr ev =>
             exists out,
               ev = EvRun [u "gh"; u "pr"; u "comment"; py_str w pr;
                           u "-F"; f; u "-R"; repo] out)
          prs
          (comment_events w repo f prs (tool_answers w repo f prs tr)).
Proof.
  induction prs as [|pr prs IH]; intros tr.
  - constructor.
  - rewrite tool_answers_cons. unfold comment_events.
    cbn [combine map fst snd]. constructor.
    + eexists. reflexivity.
    + apply IH.
Qed.

(** C1 (corrected).  For integer identifiers, and a repository and a file
    name the operating system accepts as arguments, the commenter ends in
    exactly one of three ways, told from the tool's own answers.  When every
    identifier converts to text and every invocation starts and prints
    UTF-8, there is one invocation per element of [prs], in order, and the
    joined texts are returned.  Otherwise the commenter stops at the first
    element that fails: with the failure of that element's invocation, after
    one invocation for each element up to it and none for a later one; or
    with [ValueError] when the identifier has too many digits to convert,
    after one invocation for each earlier element and none for it.  Every
    invocation is [gh pr comment] with the text of its element, [-F] with
    [f] and [-R] with [repo], both as given. *)
Theorem comment_invokes_once_per_pr prs tr :
  forallb is_int prs = true ->
  arg_clean repo = true ->
  arg_clean f = true ->
  (forall res,
     comment w prs repo f tr = res <-> comment_ends w repo f prs tr res) /\
  (forall xs tr0,
     Forall2 (fun pr ev =>
                exists out,
                  ev = EvRun [u "gh"; u "pr"; u "comment"; py_str w pr;
                              u "-F"; f; u "-R"; repo] out)
             xs
             (comment_events w repo f xs (tool_answers w repo f xs tr0))) /\
  (forall xs tr0,
     List.length (comment_events w repo f xs (tool_answers w repo f xs tr0))
       = List.length xs).
Proof.
  intros _ _ _. split; [|split].
  - intros res. split.
    + intros <-. apply comment_ends_total.
    + apply comment_ends_sound.
  - apply comment_events_shape.
  - intros xs tr0. symmetry.
    apply (Forall2_length (comment_events_shape xs tr0)).
Qed.

(** C2.  Whenever the commenter returns a text, every invocation printed
    UTF-8 text and the result is these texts joined, in the order of [prs],
    with nothing between or around them; and for integer identifiers that
    convert, whenever every invocation starts and prints UTF-8 text, the
    commenter does return that text.  With no identifier the result is the
    empty text. *)
Theorem comment_returns_concatenation prs tr :
  (forall s,
     fst (comment w prs repo f tr) = Ok s ->
     exists texts,
       rmapM stdout_text (tool_answers w repo f prs tr) = Ok texts /\
       s = List.concat texts /\
       snd (comment w prs repo f tr)
         = tr ++ comment_events w repo f prs (tool_answers w repo f prs tr)) /\
  (forallb is_int prs = true ->
   forallb str_returns prs = true ->
   arg_clean repo = true ->
   arg_clean f = true ->
   forall texts,
     rmapM stdout_text (tool_answers w repo f prs tr) = Ok texts ->
     comment w prs repo f tr
       = (Ok (List.concat texts),
          tr ++ comment_events w repo f prs (tool_answers w repo f prs tr))) /\
  comment w [] repo f tr = (Ok [], tr).
Proof.
  split; [|split].
  - intros s Hs.
    destruct (comment_ends_total prs tr)
      as [texts Hstr Htexts
         |done pr rest texts x E Hstr Htexts Hx
         |done pr rest texts E Hstr Hpr Htexts];
      try discriminate Hs.
    simpl in Hs. injection Hs as <-. exists texts. repeat split. exact Htexts.
  - intros _ Hstr _ _ texts Htexts.
    apply comment_ends_sound. now apply ends_completed.
  - reflexivity.
Qed.

End Commenter.

(** For the identifiers 5 and 7, the repository org/repo and the file msg.md
    the commenter ends as the tool's two answers say. *)
Lemma comment_invokes_once_per_pr_witness :
  forallb is_int [PyInt 5; PyInt 7] = true /\
  arg_clean (u "org/repo") = true /\
  arg_clean (u "msg.md") = true /\
  comment_ends (demo_world "y") (u "org/repo") (u "msg.md")
    [PyInt 5; PyInt 7] []
    (Ok (u "postedposted"),
     [EvRun [u "gh"; u "pr"; u "comment"; u "5"; u "-F"; u "msg.md";
             u "-R"; u "org/repo"] (Some (b "posted"));
      EvRun [u "gh"; u "pr"; u "comment"; u "7"; u "-F"; u "msg.md";
             u "-R"; u "org/repo"] (Some (b "posted"))]).
Proof.
  repeat (split; [reflexivity|]).
  apply (proj1 (comment_invokes_once_per_pr (demo_world "y") (u "org/repo")
                  (u "msg.md") [PyInt 5; PyInt 7] []
                  eq_refl eq_refl eq_refl)).
  vm_compute. reflexivity.
Defined.

(** The same call, read from the tool's two answers. *)
Lemma comment_returns_concatenation_witness :
  forallb is_int [PyInt 5; PyInt 7] = true /\
  forallb str_returns [PyInt 5; PyInt 7] = true /\
  arg_clean (u "org/repo") = true /\
  arg_clean (u "msg.md") = true /\
  rmapM stdout_text
    (tool_answers (demo_world "y") (u "org/repo") (u "msg.md")
       [PyInt 5; PyInt 7] []) = Ok [u "posted"; u "posted"] /\
  fst (comment (demo_world "y") [PyInt 5; PyInt 7] (u "org/repo")
         (u "msg.md") []) = Ok (u "postedposted").
Proof.
  repeat (split; [reflexivity|]).
  exact (f_equal fst
           (proj1 (proj2 (comment_returns_concatenation (demo_world "y")
                            (u "org/repo") (u "msg.md") [PyInt 5; PyInt 7] []))
              eq_refl eq_refl eq_refl eq_refl
              [u "posted"; u "posted"] eq_refl)).
Defined.

(** When the tool cannot be started, or prints a byte that is not UTF-8,
    the first invocation is the only one: the identifier 7 is never
    commented on. *)
Lemma comment_stops_at_first_failure :
  let argv5 := [u "gh"; u "pr"; u "comment"; u "5"; u "-F"; u "msg.md";
                u "-R"; u "org/repo"] in
  comment absent_tool_world [PyInt 5; PyInt 7] (u "org/repo") (u "msg.md") []
    = (Error OSError, [EvRun argv5 None]) /\
  comment (stub_world listing_5_7 [xff] (u "y")) [PyInt 5; PyInt 7]
          (u "org/repo") (u "msg.md") []
    = (Error UnicodeDecodeError, [EvRun argv5 (Some [xff])]).
Proof. split; vm_compute; reflexivity. Qed.

(** An identifier that [str] refuses ends the commenter before any
    invocation for it: the identifier 5 is commented on, the others are
    not. *)
Lemma comment_stops_at_unconvertible n :
  str_returns (PyInt n) = false ->
  comment (demo_world "y") [PyInt 5; PyInt n; PyInt 7]
          (u "org/repo") (u "msg.md") []
    = (Error ValueError,
       [EvRun [u "gh"; u "pr"; u "comment"; u "5"; u "-F"; u "msg.md";
               u "-R"; u "org/repo"] (Some (b "posted"))]).
Proof.
  intros Hn. apply comment_ends_sound.
  exact (ends_at_conversion (demo_world "y") (u "org/repo") (u "msg.md")
           [PyInt 5; PyInt n; PyInt 7] [] [PyInt 5] (PyInt n) [PyInt 7]
           [u "posted"] eq_refl eq_refl Hn eq_refl).
Qed.

Example comment_two_outputs :
  fst (comment (demo_world "y") [PyInt 5; PyInt 7] (u "org/repo") (u "msg.md") [])
  = Ok (u "postedposted").
Proof. vm_compute. reflexivity. Qed.

(** C6.  The extractor answers the empty sequence on the empty JSON array,
    and the commenter given no identifier leaves the trace as it was: it
    invokes nothing. *)
Theorem empty_listing_no_invocation :
  format (b "[]") = Ok [] /\
  forall w repo f tr, comment w [] repo f tr = (Ok [], tr).
Proof. split; [vm_compute; reflexivity | reflexivity]. Qed.

(* ================================================================== *)
(** ** The extractor *)

Lemma format_decoded raw :
  format raw =
  (v <- decoded raw ;;
   items <- py_iter v ;;
   rmapM (fun pr => py_getitem pr (u "number")) items)%result.
Proof.
  unfold format, decoded. destruct (decode_utf8 raw); reflexivity.
Qed.

Lemma py_getitem_number v :
  py_getitem v (u "number") =
  match number_of v with
  | Some x => Ok x
  | None => Error (if is_object v then KeyError else TypeError)
  end.
Proof.
  destruct v; reflexivity.
Qed.

Lemma rmapM_getitem_ok items : forall out,
  map number_of items = map Some out ->
  rmapM (fun pr => py_getitem pr (u "number")) items = Ok out.
Proof.
  induction items as [|v items IH]; intros [|o out] H; simpl in H;
    try discriminate; [reflexivity|].
  injection H as Hv Hrest. simpl.
  rewrite py_getitem_number, Hv. simpl. now rewrite (IH out Hrest).
Qed.

Lemma rmapM_getitem_inv items : forall out,
  rmapM (fun pr => py_getitem pr (u "number")) items = Ok out ->
  map number_of items = map Some out.
Proof.
  induction items as [|v items IH]; intros out H; simpl in H.
  - injection H as <-. reflexivity.
  - rewrite py_getitem_number in H.
    destruct (number_of v) as [x|] eqn:Ev; [|discriminate]. simpl in H.
    destruct (rmapM _ items) as [ys|] eqn:Eys; [|discriminate]. simpl in H.
    injection H as <-. simpl. rewrite Ev. f_equal. now apply IH.
Qed.

Lemma rmapM_getitem_error items v :
  In v items -> number_of v = None ->
  exists x, rmapM (fun pr => py_getitem pr (u "number")) items = Error x.
Proof.
  intros Hin Hv. induction items as [|v' items IH]; [contradiction|].
  simpl. destruct (py_getitem v' (u "number")) as [y|x] eqn:Ey.
  - simpl. destruct Hin as [->|Hin].
    + rewrite py_getitem_number, Hv in Ey. discriminate.
    + destruct (IH Hin) as [x Hx]. rewrite Hx. now exists x.
  - now exists x.
Qed.

Lemma not_all_objects vs :
  forallb is_object vs = false ->
  exists v, In v vs /\ number_of v = None.
Proof.
  induction vs as [|v vs IH]; simpl; [discriminate|].
  destruct (is_object v) eqn:Ev; simpl.
  - intros H. destruct (IH H) as (v' & Hin & Hv'). eauto.
  - intros _. exists v. split; [now left|]. destruct v; try reflexivity.
    discriminate.
Qed.

Lemma forallb_is_int items : forall out,
  map number_of items = map Some out ->
  forallb is_int out = forallb has_int_number items.
Proof.
  induction items as [|v items IH]; intros [|o out] H; simpl in H;
    try discriminate; [reflexivity|].
  injection H as Hv Hrest. simpl. unfold has_int_number at 1. rewrite Hv.
  rewrite (IH out Hrest). destruct o; reflexivity.
Qed.

(** C3.  When the bytes decode to a JSON array whose elements are objects
    with a [number] member, the extractor returns the values of those
    members, in the order of the array. *)
Theorem format_returns_number_fields raw text objs nums :
  decode_utf8 raw = Ok text ->
  loads text = Ok (PyList objs) ->
  map number_of objs = map Some nums ->
  format raw = Ok nums.
Proof.
  intros Hdec Hloads Hnums. unfold format. rewrite Hdec. simpl.
  rewrite Hloads. simpl. now apply rmapM_getitem_ok.
Qed.

(** The listing with the numbers 1 and 2 yields 1 and 2, in that order. *)
Lemma format_returns_number_fields_witness :
  let text := ("[{" ++ dq ++ "number" ++ dq ++ ":1},{"
                    ++ dq ++ "number" ++ dq ++ ":2}]")%string in
  let objs := [PyDict [(u "number", PyInt 1)]; PyDict [(u "number", PyInt 2)]] in
  decode_utf8 (b text) = Ok (u text) /\
  loads (u text) = Ok (PyList objs) /\
  map number_of objs = map Some [PyInt 1; PyInt 2] /\
  format (b text) = Ok [PyInt 1; PyInt 2].
Proof.
  intros text objs.
  assert (Hdec : decode_utf8 (b text) = Ok (u text)) by (vm_compute; reflexivity).
  assert (Hloads : loads (u text) = Ok (PyList objs)) by (vm_compute; reflexivity).
  assert (Hnums : map number_of objs = map Some [PyInt 1; PyInt 2])
    by (vm_compute; reflexivity).
  split; [exact Hdec|]. split; [exact Hloads|]. split; [exact Hnums|].
  exact (format_returns_number_fields (b text) (u text) objs
           [PyInt 1; PyInt 2] Hdec Hloads Hnums).
Defined.

(** A later member replaces an earlier one of the same name. *)
Example format_duplicate_member :
  format (b ("[{" ++ dq ++ "number" ++ dq ++ ":1," ++ dq ++ "number" ++ dq ++ ":2}]")%string)
  = Ok [PyInt 2].
Proof. vm_compute. reflexivity. Qed.

(** C8 (as the code has it).  Whatever the extractor returns is, element by
    element and in order, the value stored under [number] in the
    corresponding item of the decoded listing; the elements are all integers
    exactly when all those values are. *)
Theorem format_returns_fields_as_decoded raw out :
  format raw = Ok out ->
  exists v items,
    decoded raw = Ok v /\
    py_iter v = Ok items /\
    map number_of items = map Some out /\
    forallb is_int out = forallb has_int_number items.
Proof.
  rewrite format_decoded. intros H.
  destruct (decoded raw) as [v|] eqn:Ev; [|discriminate]. simpl in H.
  destruct (py_iter v) as [items|] eqn:Eitems; [|discriminate]. simpl in H.
  apply rmapM_getitem_inv in H.
  exists v, items. repeat split; trivial. now apply forallb_is_int.
Qed.

Lemma format_returns_fields_as_decoded_witness :
  let raw := b ("[{" ++ dq ++ "number" ++ dq ++ ":-3}]")%string in
  format raw = Ok [PyInt (-3)] /\
  exists v items,
    decoded raw = Ok v /\
    py_iter v = Ok items /\
    map number_of items = map Some [PyInt (-3)] /\
    forallb is_int [PyInt (-3)] = forallb has_int_number items.
Proof.
  intros raw.
  assert (H : format raw = Ok [PyInt (-3)]) by (vm_compute; reflexivity).
  split; [exact H|].
  exact (format_returns_fields_as_decoded raw [PyInt (-3)] H).
Defined.

(** A string under [number] is accepted and returned as a string. *)
Lemma format_string_number_not_int :
  let raw := b ("[{" ++ dq ++ "number" ++ dq ++ ":" ++ dq ++ "x" ++ dq ++ "}]")%string in
  decoded raw = Ok (PyList [PyDict [(u "number", PyStr (u "x"))]]) /\
  format raw = Ok [PyStr (u "x")] /\
  forallb is_int [PyStr (u "x")] = false.
Proof. repeat split; vm_compute; reflexivity. Qed.

(** C9 (as the code has it).  On valid JSON that is not an array of
    objects the extractor returns the empty sequence when the value is the
    empty string or the empty object, and raises in every other case: a
    number, a boolean, null, a string or an object that is not empty, an
    array with an element that is not an object. *)
Theorem format_on_non_array_of_objects raw v :
  decoded raw = Ok v ->
  array_of_objects v = false ->
  if empty_text_or_object v
  then format raw = Ok []
  else exists x, format raw = Error x.
Proof.
  intros Hv Hshape. rewrite format_decoded, Hv. simpl rbind.
  destruct v as [| t | n | lit | s | vs | kvs]; simpl;
    try (now exists TypeError).
  - destruct s as [|c s]; simpl; [reflexivity | now exists TypeError].
  - simpl in Hshape. destruct (not_all_objects vs Hshape) as (v & Hin & Hnum).
    exact (rmapM_getitem_error vs v Hin Hnum).
  - destruct kvs as [|[k x] kvs]; simpl; [reflexivity | now exists TypeError].
Qed.

Lemma format_on_non_array_of_objects_witness :
  decoded (b "5") = Ok (PyInt 5) /\
  array_of_objects (PyInt 5) = false /\
  exists x, format (b "5") = Error x.
Proof.
  assert (Hv : decoded (b "5") = Ok (PyInt 5)) by (vm_compute; reflexivity).
  assert (Hshape : array_of_objects (PyInt 5) = false) by reflexivity.
  split; [exact Hv|]. split; [exact Hshape|].
  exact (format_on_non_array_of_objects (b "5") (PyInt 5) Hv Hshape).
Defined.

(** The empty object is valid JSON, is not an array, and is accepted. *)
Lemma format_empty_object_accepted :
  decoded (b "{}") = Ok (PyDict []) /\
  array_of_objects (PyDict []) = false /\
  format (b "{}") = Ok [].
Proof. repeat split; vm_compute; reflexivity. Qed.

(** So is the empty string. *)
Example format_empty_string_accepted :
  decoded (b (dq ++ dq)%string) = Ok (PyStr []) /\
  format (b (dq ++ dq)%string) = Ok [].
Proof. split; vm_compute; reflexivity. Qed.

Example format_rejects_other_shapes :
  format (b "5") = Error TypeError /\
  format (b "null") = Error TypeError /\
  format (b (dq ++ "ab" ++ dq)%string) = Error TypeError /\
  format (b ("{" ++ dq ++ "number" ++ dq ++ ":1}")%string) = Error TypeError /\
  format (b "[1]") = Error TypeError /\
  format (b ("[{" ++ dq ++ "id" ++ dq ++ ":1}]")%string) = Error KeyError.
Proof. repeat split; vm_compute; reflexivity. Qed.

(* ================================================================== *)
(** ** The lister *)

(** C7 (as the code has it).  The lister invokes the tool once, with the
    command line [gh pr list --json <field> -R <repo>]: the repository is
    the argument as given, and the field argument is the name [number]
    between two double-quote characters, eight characters in all. *)
Theorem fetch_invokes_list_once w repo tr :
  let argv := [u "gh"; u "pr"; u "list"; u "--json";
               [34] ++ u "number" ++ [34]; u "-R"; repo] in
  fetch w repo tr =
    (match tool w tr argv with
     | Some bs => Ok bs
     | None => Error OSError
     end, tr ++ [EvRun argv (tool w tr argv)]) /\
  json_field_arg argv = Some ([34] ++ u "number" ++ [34]) /\
  last argv [] = repo.
Proof. repeat split. Qed.

(** The field argument is not the bare name. *)
Lemma fetch_field_arg_is_quoted :
  snd (fetch (demo_world "y") (u "org/repo") [])
    = [EvRun (fetch_argv (u "org/repo")) (Some listing_5_7)] /\
  json_field_arg (fetch_argv (u "org/repo")) = Some (u (dq ++ "number" ++ dq)%string) /\
  json_field_arg (fetch_argv (u "org/repo")) <> Some (u "number").
Proof.
  split; [reflexivity|]. split; [reflexivity|]. vm_compute. discriminate.
Qed.

(* ================================================================== *)
(** ** The entry point *)

Lemma main_short w argv tr :
  (List.length argv < 3)%nat -> main w argv tr = (Error IndexError, tr).
Proof.
  destruct argv as [|a0 [|a1 [|a2 rest]]]; simpl; intros H;
    try reflexivity; lia.
Qed.

(** Once the listing is in: the rest of [main]. *)
Lemma main_after_fetch w script repo cf rest raw :
  tool w [] (fetch_argv repo) = Some raw ->
  main w (script :: repo :: cf :: rest) [] =
  (prs <- lift (format raw) ;;
   response <- input w (prompt_text (List.length prs) repo cf) ;;
   if pystr_eqb response (u "y") || pystr_eqb response (u "Y") then
     _ <- comment w prs repo cf ;;
     print (u "Done")
   else ret tt)%prog [EvRun (fetch_argv repo) (Some raw)].
Proof.
  intros Htool. unfold main, argv_get. simpl nth_error.
  unfold bind at 1, lift at 1. unfold bind at 1, lift at 1.
  unfold bind at 1, fetch, run. rewrite Htool. reflexivity.
Qed.

(** Once the answer is in as well. *)
Lemma main_after_input w script repo cf rest raw prs response :
  tool w [] (fetch_argv repo) = Some raw ->
  format raw = Ok prs ->
  stdin w [EvRun (fetch_argv repo) (Some raw)]
        (prompt_text (List.length prs) repo cf) = Some response ->
  main w (script :: repo :: cf :: rest) [] =
  (if pystr_eqb response (u "y") || pystr_eqb response (u "Y") then
     _ <- comment w prs repo cf ;;
     print (u "Done")
   else ret tt)%prog
    [EvRun (fetch_argv repo) (Some raw);
     EvInput (prompt_text (List.length prs) repo cf) (Some response)].
Proof.
  intros Htool Hformat Hstdin.
  rewrite (main_after_fetch w script repo cf rest raw Htool).
  unfold bind at 1, lift at 1. rewrite Hformat.
  unfold bind at 1, input. rewrite Hstdin. reflexivity.
Qed.

Lemma yes_iff response :
  pystr_eqb response (u "y") || pystr_eqb response (u "Y") = true <->
  response = u "y" \/ response = u "Y".
Proof.
  rewrite orb_true_iff, !pystr_eqb_eq. reflexivity.
Qed.

(** C4.  Suppose the program got as far as reading the answer [response]
    to its question.  If the answer is exactly y or Y, the comment step runs
    next, and when it returns the marker is printed, last; if it raises, the
    program raises and prints nothing.  On any other answer the program
    ends there without an error: no comment invocation, no marker.  So the
    marker in the trace means the answer was y or Y and the comment step ran
    to its end before it. *)
Theorem main_comments_only_on_yes w script repo cf rest raw prs response :
  tool w [] (fetch_argv repo) = Some raw ->
  format raw = Ok prs ->
  stdin w [EvRun (fetch_argv repo) (Some raw)]
        (prompt_text (List.length prs) repo cf) = Some response ->
  let asked := [EvRun (fetch_argv repo) (Some raw);
                EvInput (prompt_text (List.length prs) repo cf) (Some response)] in
  let done := main w (script :: repo :: cf :: rest) [] in
  (response = u "y" \/ response = u "Y" ->
   done = (let (r, tr) := comment w prs repo cf asked in
           match r with
           | Ok _ => (Ok tt, tr ++ [EvPrint (u "Done")])
           | Error x => (Error x, tr)
           end)) /\
  (response <> u "y" -> response <> u "Y" ->
   done = (Ok tt, asked) /\ comment_runs (snd done) = []) /\
  (In (EvPrint (u "Done")) (snd done) ->
   (response = u "y" \/ response = u "Y") /\
   exists s outs,
     List.length outs = List.length prs /\
     comment w prs repo cf asked
       = (Ok s, asked ++ comment_events w repo cf prs outs) /\
     done = (Ok tt, asked ++ comment_events w repo cf prs outs
                      ++ [EvPrint (u "Done")])).
Proof.
  intros Htool Hformat Hstdin asked done.
  assert (Hdone := main_after_input w script repo cf rest raw prs response
                     Htool Hformat Hstdin).
  fold asked in Hdone. fold done in Hdone.
  destruct (bind_comment_print w repo cf prs asked)
    as (outs & Hlen & Hcases).
  split; [|split].
  - intros Hyes. apply yes_iff in Hyes. rewrite Hyes in Hdone.
    rewrite Hdone.
    destruct Hcases as [(s & Hc & Hfull & Hbind)|(x & Hc & Hbind)];
      rewrite Hbind, Hc; [now rewrite app_assoc | reflexivity].
  - intros Hy HY.
    rewrite (pystr_eqb_neq _ _ Hy), (pystr_eqb_neq _ _ HY) in Hdone.
    simpl in Hdone. unfold ret in Hdone. rewrite Hdone. split; reflexivity.
  - intros Hin.
    destruct (pystr_eqb response (u "y") || pystr_eqb response (u "Y")) eqn:E.
    + split; [now apply yes_iff|].
      destruct Hcases as [(s & Hc & Hfull & Hbind)|(x & Hc & Hbind)];
        rewrite Hbind in Hdone.
      * exists s, outs. split; [exact Hfull|].
        split; [exact Hc | exact Hdone].
      * exfalso. rewrite Hdone in Hin. simpl in Hin.
        destruct Hin as [Hin|[Hin|Hin]]; try discriminate.
        now apply comment_events_no_print in Hin.
    + exfalso. unfold ret in Hdone. rewrite Hdone in Hin. simpl in Hin.
      destruct Hin as [Hin|[Hin|[]]]; discriminate.
Qed.

(** The answer " y", with a leading blank, is not a yes. *)
Lemma main_comments_only_on_yes_witness :
  let w := demo_world " y" in
  let asked := [EvRun (fetch_argv (u "org/repo")) (Some listing_5_7);
                EvInput (prompt_text 2 (u "org/repo") (u "msg.md"))
                        (Some (u " y"))] in
  tool w [] (fetch_argv (u "org/repo")) = Some listing_5_7 /\
  format listing_5_7 = Ok [PyInt 5; PyInt 7] /\
  stdin w [EvRun (fetch_argv (u "org/repo")) (Some listing_5_7)]
        (prompt_text 2 (u "org/repo") (u "msg.md")) = Some (u " y") /\
  main w demo_argv [] = (Ok tt, asked) /\
  comment_runs (snd (main w demo_argv [])) = [].
Proof.
  intros w asked.
  assert (Htool : tool w [] (fetch_argv (u "org/repo")) = Some listing_5_7)
    by reflexivity.
  assert (Hformat : format listing_5_7 = Ok [PyInt 5; PyInt 7])
    by (vm_compute; reflexivity).
  assert (Hstdin : stdin w [EvRun (fetch_argv (u "org/repo")) (Some listing_5_7)]
                     (prompt_text (List.length [PyInt 5; PyInt 7])
                        (u "org/repo") (u "msg.md")) = Some (u " y"))
    by reflexivity.
  split; [exact Htool|]. split; [exact Hformat|]. split; [exact Hstdin|].
  apply (proj1 (proj2 (main_comments_only_on_yes w (u "comment.py")
                         (u "org/repo") (u "msg.md") [] listing_5_7
                         [PyInt 5; PyInt 7] (u " y") Htool Hformat Hstdin)));
    vm_compute; discriminate.
Defined.

(** The answers of the specification, in the demonstration world: the
    number of comment invocations and whether the marker was printed. *)
Example main_answers :
  let outcome (answer : string) :=
    let tr := snd (main (demo_world answer) demo_argv []) in
    (fst (main (demo_world answer) demo_argv []),
     List.length (comment_runs tr),
     existsb (fun ev => match ev with EvPrint _ => true | _ => false end) tr) in
  outcome "y"%string = (Ok tt, 2%nat, true) /\
  outcome "Y"%string = (Ok tt, 2%nat, true) /\
  outcome "n"%string = (Ok tt, 0%nat, false) /\
  outcome EmptyString = (Ok tt, 0%nat, false) /\
  outcome "yes"%string = (Ok tt, 0%nat, false) /\
  outcome " y"%string = (Ok tt, 0%nat, false).
Proof. repeat split; vm_compute; reflexivity. Qed.

(** C5.  Bytes that do not decode to JSON, and a JSON array with an element
    that has no [number] member, make the extractor raise.  In the entry
    point the error ends the program right after the listing: the question
    is not asked and nothing is commented on. *)
Theorem extraction_failure_stops_main w script repo cf rest raw :
  (exists x, decoded raw = Error x) \/
  (exists vs v, decoded raw = Ok (PyList vs) /\ In v vs /\ number_of v = None) ->
  exists x,
    format raw = Error x /\
    (tool w [] (fetch_argv repo) = Some raw ->
     let done := main w (script :: repo :: cf :: rest) [] in
     done = (Error x, [EvRun (fetch_argv repo) (Some raw)]) /\
     existsb is_input (snd done) = false /\
     comment_runs (snd done) = []).
Proof.
  intros Hbad.
  assert (Hx : exists x, format raw = Error x).
  { rewrite format_decoded. destruct Hbad as [[x Hx]|(vs & v & Hvs & Hin & Hnum)].
    - rewrite Hx. now exists x.
    - rewrite Hvs. simpl. exact (rmapM_getitem_error vs v Hin Hnum). }
  destruct Hx as [x Hx]. exists x. split; [exact Hx|].
  intros Htool done.
  assert (Hdone : done = (Error x, [EvRun (fetch_argv repo) (Some raw)])).
  { unfold done. rewrite (main_after_fetch w script repo cf rest raw Htool).
    unfold bind at 1, lift at 1. now rewrite Hx. }
  rewrite Hdone. repeat split.
Qed.

(** The text [not json] in place of the listing. *)
Lemma extraction_failure_stops_main_witness :
  let raw := b "not json" in
  let w := stub_world raw (b "posted") (u "y") in
  decoded raw = Error JSONDecodeError /\
  exists x,
    format raw = Error x /\
    (tool w [] (fetch_argv (u "org/repo")) = Some raw ->
     let done := main w demo_argv [] in
     done = (Error x, [EvRun (fetch_argv (u "org/repo")) (Some raw)]) /\
     existsb is_input (snd done) = false /\
     comment_runs (snd done) = []).
Proof.
  intros raw w.
  assert (Hbad : decoded raw = Error JSONDecodeError) by (vm_compute; reflexivity).
  split; [exact Hbad|].
  apply (extraction_failure_stops_main w (u "comment.py") (u "org/repo")
           (u "msg.md") [] raw).
  left. exists JSONDecodeError. exact Hbad.
Defined.

Example malformed_listings :
  format (b "not json") = Error JSONDecodeError /\
  format [xff] = Error UnicodeDecodeError /\
  format (b ("[{" ++ dq ++ "number" ++ dq ++ ":1},{" ++ dq ++ "title" ++ dq ++ ":2}]")%string)
    = Error KeyError /\
  main (stub_world (b "not json") (b "posted") (u "y")) demo_argv []
    = (Error JSONDecodeError,
       [EvRun (fetch_argv (u "org/repo")) (Some (b "not json"))]).
Proof. repeat split; vm_compute; reflexivity. Qed.

(** The decoder's limits, at their edges: an integer of 4301 digits is
    refused with [ValueError], one of 4300 is read; a value inside 994
    arrays is read, one inside 995 is refused with [RecursionError]; a
    syntax error inside 992 arrays comes out as [RecursionError], inside 991
    as the decoder's own exception. *)
Example format_at_the_limits :
  format (encode_ascii (u ("[{" ++ dq ++ "number" ++ dq ++ ":")%string
                          ++ repeat 49 4301 ++ u "}]"))
    = Error ValueError /\
  format (encode_ascii (u ("[{" ++ dq ++ "number" ++ dq ++ ":")%string
                          ++ repeat 49 4300 ++ u "}]"))
    = Ok [PyInt (json.digits_value (repeat 49 4300))] /\
  (exists v, loads (repeat 91 994 ++ repeat 93 994) = Ok v) /\
  loads (repeat 91 995 ++ repeat 93 995) = Error RecursionError /\
  loads (repeat 91 992 ++ [49]) = Error RecursionError /\
  loads (repeat 91 991 ++ [49]) = Error JSONDecodeError.
Proof.
  repeat split; try (vm_compute; reflexivity).
  eexists. vm_compute. reflexivity.
Qed.

(** C10.  With fewer than two arguments after the script's name, the
    program raises [IndexError] while it reads them and the trace stays
    empty: the tool is not invoked, standard input is not read, nothing is
    commented on. *)
Theorem main_too_few_arguments w argv :
  (List.length argv < 3)%nat ->
  main w argv [] = (Error IndexError, []).
Proof. apply main_short. Qed.

Lemma main_too_few_arguments_witness :
  (List.length [u "comment.py"; u "org/repo"] < 3)%nat /\
  main (demo_world "y") [u "comment.py"; u "org/repo"] []
    = (Error IndexError, []).
Proof.
  assert (H : (List.length [u "comment.py"; u "org/repo"] < 3)%nat)
    by (simpl; lia).
  split; [exact H|].
  exact (main_too_few_arguments (demo_world "y")
           [u "comment.py"; u "org/repo"] H).
Defined.

(* ================================================================== *)
(** ** Every run of the script *)

Lemma main_without_tool w script repo cf rest :
  tool w [] (fetch_argv repo) = None ->
  main w (script :: repo :: cf :: rest) []
    = (Error OSError, [EvRun (fetch_argv repo) None]).
Proof.
  intros Htool. unfold main, argv_get. simpl nth_error.
  unfold bind at 1, lift at 1. unfold bind at 1, lift at 1.
  unfold bind at 1, fetch, run. rewrite Htool. reflexivity.
Qed.

Lemma main_bad_listing w script repo cf rest raw x :
  tool w [] (fetch_argv repo) = Some raw ->
  format raw = Error x ->
  main w (script :: repo :: cf :: rest) []
    = (Error x, [EvRun (fetch_argv repo) (Some raw)]).
Proof.
  intros Htool Hformat. rewrite (main_after_fetch _ _ _ _ _ _ Htool).
  unfold bind at 1, lift at 1. now rewrite Hformat.
Qed.

Lemma main_end_of_input w script repo cf rest raw prs :
  tool w [] (fetch_argv repo) = Some raw ->
  format raw = Ok prs ->
  stdin w [EvRun (fetch_argv repo) (Some raw)]
        (prompt_text (List.length prs) repo cf) = None ->
  main w (script :: repo :: cf :: rest) []
    = (Error EOFError,
       [EvRun (fetch_argv repo) (Some raw);
        EvInput (prompt_text (List.length prs) repo cf) None]).
Proof.
  intros Htool Hformat Hstdin. rewrite (main_after_fetch _ _ _ _ _ _ Htool).
  unfold bind at 1, lift at 1. rewrite Hformat.
  unfold bind at 1, input. now rewrite Hstdin.
Qed.

(** A run ends in one of the seven ways. *)
Lemma main_run_outcome w argv :
  main_outcome w argv (main w argv []).
Proof.
  destruct argv as [|script [|repo [|cf rest]]];
    try (rewrite main_short by (simpl; lia); constructor; simpl; lia).
  destruct (tool w [] (fetch_argv repo)) as [raw|] eqn:Htool.
  2:{ rewrite (main_without_tool _ _ _ _ _ Htool).
      eapply ends_without_tool; eauto. }
  destruct (format raw) as [prs|x] eqn:Hformat.
  2:{ rewrite (main_bad_listing _ _ _ _ _ _ _ Htool Hformat).
      eapply ends_at_listing; eauto. }
  destruct (stdin w [EvRun (fetch_argv repo) (Some raw)]
              (prompt_text (List.length prs) repo cf)) as [response|] eqn:Hstdin.
  2:{ rewrite (main_end_of_input _ _ _ _ _ _ _ Htool Hformat Hstdin).
      eapply ends_at_end_of_input; eauto. }
  rewrite (main_after_input _ _ _ _ _ _ _ _ Htool Hformat Hstdin).
  fold (is_yes response). destruct (is_yes response) eqn:Hyes.
  - assert (Hends := comment_ends_total w repo cf prs
                [EvRun (fetch_argv repo) (Some raw);
                 EvInput (prompt_text (List.length prs) repo cf) (Some response)]).
    unfold bind.
    destruct (comment w prs repo cf
                [EvRun (fetch_argv repo) (Some raw);
                 EvInput (prompt_text (List.length prs) repo cf) (Some response)])
      as [[s|x] tr].
    + unfold print. eapply ends_done; eauto.
    + eapply ends_at_comment; eauto.
  - eapply ends_declined; eauto.
Qed.


(** Whatever way the commenter ends, it has added comment invocations to
    the trace and nothing else. *)
Lemma comment_ends_trace w repo f prs tr r tr' :
  comment_ends w repo f prs tr (r, tr') ->
  exists xs outs, tr' = tr ++ comment_events w repo f xs outs.
Proof.
  intros H. inversion H; subst; eauto.
Qed.

Lemma is_comment_run_comment_argv w pr repo f out :
  is_comment_run (EvRun (comment_argv w pr repo f) out) = true.
Proof. reflexivity. Qed.

Lemma is_list_run_fetch_argv repo out :
  is_list_run (EvRun (fetch_argv repo) out) = true.
Proof. reflexivity. Qed.

Lemma comment_events_all_runs w repo f prs outs :
  filter is_comment_run (comment_events w repo f prs outs)
    = comment_events w repo f prs outs.
Proof.
  unfold comment_events. induction (combine prs outs) as [|po l IH];
    [reflexivity|].
  simpl. now rewrite IH.
Qed.

Lemma comment_events_nothing_else w repo f prs outs :
  filter is_list_run (comment_events w repo f prs outs) = [] /\
  filter is_input (comment_events w repo f prs outs) = [] /\
  filter is_print (comment_events w repo f prs outs) = [].
Proof.
  unfold comment_events. induction (combine prs outs) as [|po l IH];
    [repeat split|].
  destruct IH as (H1 & H2 & H3). simpl. auto.
Qed.

Lemma comment_events_length w repo f prs outs :
  List.length outs = List.length prs ->
  List.length (comment_events w repo f prs outs) = List.length prs.
Proof.
  intros H. unfold comment_events. rewrite length_map, length_combine. lia.
Qed.

Lemma is_yes_iff response :
  is_yes response = true <-> response = u "y" \/ response = u "Y".
Proof. apply yes_iff. Qed.

(** X1.  Whatever the world and the command line: a run in which any
    comment invocation was made began with the listing and the question, and
    the answer read was exactly y or Y. *)
Theorem main_comments_only_after_yes w argv :
  comment_runs (snd (main w argv [])) <> [] ->
  exists repo raw question response rest,
    snd (main w argv [])
      = EvRun (fetch_argv repo) (Some raw)
          :: EvInput question (Some response) :: rest /\
    (response = u "y" \/ response = u "Y").
Proof.
  assert (H := main_run_outcome w argv).
  destruct (main w argv []) as [r tr]. simpl.
  inversion H; subst; intros Hruns; try (now exfalso; apply Hruns).
  - match goal with Hc : comment_ends _ _ _ _ _ (_, _) |- _ =>
      destruct (comment_ends_trace _ _ _ _ _ _ _ Hc) as (xs & outs & ->) end.
    exists repo, raw, (prompt_text (List.length prs) repo cf), response.
    eexists. split; [reflexivity | now apply is_yes_iff].
  - match goal with Hc : comment_ends _ _ _ _ _ (_, _) |- _ =>
      destruct (comment_ends_trace _ _ _ _ _ _ _ Hc) as (xs & outs & ->) end.
    exists repo, raw, (prompt_text (List.length prs) repo cf), response.
    eexists. split; [reflexivity | now apply is_yes_iff].
Qed.

Lemma main_comments_only_after_yes_witness :
  comment_runs (snd (main (demo_world "Y") demo_argv [])) <> [] /\
  exists repo raw question response rest,
    snd (main (demo_world "Y") demo_argv [])
      = EvRun (fetch_argv repo) (Some raw)
          :: EvInput question (Some response) :: rest /\
    (response = u "y" \/ response = u "Y").
Proof.
  assert (H : comment_runs (snd (main (demo_world "Y") demo_argv [])) <> [])
    by (vm_compute; discriminate).
  split; [exact H|].
  exact (main_comments_only_after_yes (demo_world "Y") demo_argv H).
Defined.

(** X2.  Whatever the world and the command line, a run lists the pull
    requests at most once, asks at most once and prints at most once. *)
Theorem main_lists_asks_prints_at_most_once w argv :
  let tr := snd (main w argv []) in
  (List.length (filter is_list_run tr) <= 1)%nat /\
  (List.length (filter is_input tr) <= 1)%nat /\
  (List.length (filter is_print tr) <= 1)%nat.
Proof.
  assert (H := main_run_outcome w argv).
  destruct (main w argv []) as [r tr]. simpl.
  inversion H; subst; try (simpl; lia).
  - match goal with Hc : comment_ends _ _ _ _ _ (_, _) |- _ =>
      destruct (comment_ends_trace _ _ _ _ _ _ _ Hc) as (xs & outs & ->) end.
    destruct (comment_events_nothing_else w repo cf xs outs) as (El & Ei & Ep).
    rewrite <- !app_assoc. simpl.
    rewrite !filter_app, El, Ei, Ep. simpl. lia.
  - match goal with Hc : comment_ends _ _ _ _ _ (_, _) |- _ =>
      destruct (comment_ends_trace _ _ _ _ _ _ _ Hc) as (xs & outs & ->) end.
    destruct (comment_events_nothing_else w repo cf xs outs) as (El & Ei & Ep).
    simpl. rewrite El, Ei, Ep. simpl. lia.
Qed.

(** X3.  Whatever the world and the command line, a line is printed only by
    a run that returns normally; the line is the marker and it is the last
    event of the run. *)
Theorem main_prints_only_on_success w argv line :
  In (EvPrint line) (snd (main w argv [])) ->
  line = u "Done" /\
  fst (main w argv []) = Ok tt /\
  exists tr, snd (main w argv []) = tr ++ [EvPrint (u "Done")] /\
             filter is_print tr = [].
Proof.
  assert (H := main_run_outcome w argv).
  destruct (main w argv []) as [r tr]. simpl.
  inversion H; subst; intros Hin; simpl in Hin;
    try (now repeat (destruct Hin as [Hin|Hin]; try discriminate)).
  - match goal with Hc : comment_ends _ _ _ _ _ (_, _) |- _ =>
      destruct (comment_ends_trace _ _ _ _ _ _ _ Hc) as (xs & outs & ->) end.
    apply in_app_or in Hin as [Hin|Hin].
    + simpl in Hin. destruct Hin as [Hin|[Hin|Hin]]; try discriminate.
      now apply comment_events_no_print in Hin.
    + destruct Hin as [Hin|[]]. injection Hin as <-.
      split; [reflexivity|]. split; [reflexivity|].
      eexists. split; [reflexivity|]. simpl.
      now destruct (comment_events_nothing_else w repo cf xs outs) as (_ & _ & ->).
  - match goal with Hc : comment_ends _ _ _ _ _ (_, _) |- _ =>
      destruct (comment_ends_trace _ _ _ _ _ _ _ Hc) as (xs & outs & ->) end.
    simpl in Hin. destruct Hin as [Hin|[Hin|Hin]]; try discriminate.
    now apply comment_events_no_print in Hin.
Qed.

Lemma main_prints_only_on_success_witness :
  In (EvPrint (u "Done")) (snd (main (demo_world "y") demo_argv [])) /\
  fst (main (demo_world "y") demo_argv []) = Ok tt.
Proof.
  assert (H : In (EvPrint (u "Done")) (snd (main (demo_world "y") demo_argv [])))
    by (vm_compute; tauto).
  split; [exact H|].
  exact (proj1 (proj2 (main_prints_only_on_success (demo_world "y") demo_argv
                         (u "Done") H))).
Defined.





(** X6.  For a repository and a file name the operating system accepts
    as arguments and a listing of integer identifiers: when every comment
    invocation starts and prints UTF-8 text, a run that is answered y or Y
    returns normally, and the number of comment invocations it made is the
    number of pull requests its question announced.  The identifiers need
    not be assumed to convert to text: the extractor returns none that does
    not. *)
Theorem main_posts_the_announced_number w script repo cf rest raw prs response
    texts :
  arg_clean repo = true ->
  arg_clean cf = true ->
  tool w [] (fetch_argv repo) = Some raw ->
  format raw = Ok prs ->
  forallb is_int prs = true ->
  stdin w [EvRun (fetch_argv repo) (Some raw)]
        (prompt_text (List.length prs) repo cf) = Some response ->
  is_yes response = true ->
  rmapM stdout_text
    (tool_answers w repo cf prs
       [EvRun (fetch_argv repo) (Some raw);
        EvInput (prompt_text (List.length prs) repo cf) (Some response)])
    = Ok texts ->
  let done := main w (script :: repo :: cf :: rest) [] in
  fst done = Ok tt /\
  nth_error (snd done) 1
    = Some (EvInput (prompt_text (List.length prs) repo cf) (Some response)) /\
  List.length (comment_runs (snd done)) = List.length prs.
Proof.
  intros _ _ Htool Hformat _ Hstdin Hyes Htexts done. unfold done.
  pose proof (format_converts raw prs Hformat) as Hstr.
  rewrite (main_after_input _ _ _ _ _ _ _ _ Htool Hformat Hstdin).
  fold (is_yes response). rewrite Hyes. unfold bind.
  rewrite (comment_ends_sound _ _ _ _ _ _
             (ends_completed _ _ _ _ _ texts Hstr Htexts)).
  unfold print. simpl fst. simpl snd.
  split; [reflexivity|]. split; [reflexivity|].
  unfold comment_runs. cbn [filter is_comment_run].
  rewrite filter_app, comment_events_all_runs. simpl filter.
  rewrite app_nil_r.
  apply comment_events_length, tool_answers_length.
Qed.

Lemma main_posts_the_announced_number_witness :
  List.length
    (comment_runs (snd (main (demo_world "y") demo_argv []))) = 2%nat.
Proof.
  assert (Htool : tool (demo_world "y") [] (fetch_argv (u "org/repo"))
                  = Some listing_5_7) by reflexivity.
  assert (Hformat : format listing_5_7 = Ok [PyInt 5; PyInt 7])
    by (vm_compute; reflexivity).
  assert (Hstdin : stdin (demo_world "y")
                     [EvRun (fetch_argv (u "org/repo")) (Some listing_5_7)]
                     (prompt_text (List.length [PyInt 5; PyInt 7])
                        (u "org/repo") (u "msg.md")) = Some (u "y"))
    by reflexivity.
  assert (Hyes : is_yes (u "y") = true) by reflexivity.
  exact (proj2 (proj2 (main_posts_the_announced_number (demo_world "y")
                         (u "comment.py") (u "org/repo") (u "msg.md") []
                         listing_5_7 [PyInt 5; PyInt 7] (u "y")
                         [u "posted"; u "posted"]
                         eq_refl eq_refl Htool Hformat eq_refl
                         Hstdin Hyes eq_refl))).
Defined.

(** X7.  When the listing holds no pull request and the answer is y or Y,
    the run prints the marker and returns without invoking the tool again,
    in any world. *)
Theorem main_empty_listing_yes w script repo cf rest raw response :
  tool w [] (fetch_argv repo) = Some raw ->
  format raw = Ok [] ->
  stdin w [EvRun (fetch_argv repo) (Some raw)] (prompt_text 0 repo cf)
    = Some response ->
  is_yes response = true ->
  main w (script :: repo :: cf :: rest) []
    = (Ok tt, [EvRun (fetch_argv repo) (Some raw);
               EvInput (prompt_text 0 repo cf) (Some response);
               EvPrint (u "Done")]).
Proof.
  intros Htool Hformat Hstdin Hyes.
  rewrite (main_after_input _ _ _ _ _ _ [] _ Htool Hformat Hstdin).
  fold (is_yes response). rewrite Hyes. reflexivity.
Qed.

Lemma main_empty_listing_yes_witness :
  main (stub_world (b "[]") [xff] (u "Y")) demo_argv []
    = (Ok tt, [EvRun (fetch_argv (u "org/repo")) (Some (b "[]"));
               EvInput (prompt_text 0 (u "org/repo") (u "msg.md"))
                       (Some (u "Y"));
               EvPrint (u "Done")]).
Proof.
  assert (Hformat : format (b "[]") = Ok []) by (vm_compute; reflexivity).
  exact (main_empty_listing_yes (stub_world (b "[]") [xff] (u "Y"))
           (u "comment.py") (u "org/repo") (u "msg.md") [] (b "[]") (u "Y")
           eq_refl Hformat eq_refl eq_refl).
Defined.

(* ================================================================== *)
(** ** More on the commenter *)

(** X8.  Commenting on a list in two parts, one after the other, is
    commenting on the whole list: the same invocations in the same order,
    the two results joined; if the first part raises, the second is not
    begun. *)
Theorem comment_app w xs ys repo f tr :
  comment w (xs ++ ys) repo f tr =
  match comment w xs repo f tr with
  | (Ok s1, tr1) =>
      let (r, tr2) := comment w ys repo f tr1 in (rmap (app s1) r, tr2)
  | (Error x, tr1) => (Error x, tr1)
  end.
Proof.
  rewrite !comment_eq, pmapM_app.
  destruct (pmapM (comment_one w repo f) xs tr) as [[bs|x] tr1]; [|reflexivity].
  simpl. rewrite comment_eq.
  destruct (pmapM (comment_one w repo f) ys tr1) as [[cs|x] tr2]; [|reflexivity].
  simpl. now rewrite concat_app.
Qed.

(** X9.  Whatever the world, the events the commenter adds are invocations
    of [gh pr comment] and nothing else: it does not list, read standard
    input or print. *)
Theorem comment_only_comments w prs repo f tr :
  exists evs,
    snd (comment w prs repo f tr) = tr ++ evs /\
    comment_runs evs = evs /\
    filter is_list_run evs = [] /\
    filter is_input evs = [] /\
    filter is_print evs = [].
Proof.
  destruct (pmapM_comment_one w repo f prs tr) as (outs & _ & Heq & _).
  exists (comment_events w repo f prs outs).
  rewrite comment_eq.
  destruct (pmapM (comment_one w repo f) prs tr) as [r tr']. simpl in *.
  split; [exact Heq|].
  split; [apply comment_events_all_runs | apply comment_events_nothing_else].
Qed.

Lemma decode_utf8_ascii : forall bs,
  is_ascii bs = true -> decode_utf8 bs = Ok (map byte_val bs).
Proof.
  induction bs as [|x bs IH]; [reflexivity|].
  unfold is_ascii. simpl forallb. intros H.
  apply andb_true_iff in H as [Hx Hbs].
  simpl decode_utf8. rewrite Hx. rewrite (IH Hbs). reflexivity.
Qed.

Lemma stdout_text_ascii : forall outs,
  forallb is_ascii outs = true ->
  rmapM stdout_text (map Some outs) = Ok (map (map byte_val) outs).
Proof.
  induction outs as [|bs outs IH]; [reflexivity|].
  simpl forallb. intros H. apply andb_true_iff in H as [Hbs Houts].
  simpl. rewrite (decode_utf8_ascii bs Hbs). simpl.
  now rewrite (IH Houts).
Qed.

(** X10.  For integer identifiers that convert, and a repository and a
    file name the operating system accepts as arguments: when every
    invocation starts and prints ASCII, the commenter does not raise; it
    makes one invocation per element and returns the characters of all
    outputs, one output after the other. *)
Theorem comment_on_ascii_output w repo f prs tr outs :
  forallb is_int prs = true ->
  forallb str_returns prs = true ->
  arg_clean repo = true ->
  arg_clean f = true ->
  tool_answers w repo f prs tr = map Some outs ->
  forallb is_ascii outs = true ->
  comment w prs repo f tr
    = (Ok (List.concat (map (map byte_val) outs)),
       tr ++ comment_events w repo f prs (map Some outs)) /\
  List.length (comment_events w repo f prs (map Some outs)) = List.length prs.
Proof.
  intros _ Hstr _ _ Hanswers Hascii.
  assert (Htexts := stdout_text_ascii outs Hascii).
  rewrite <- Hanswers in *. split.
  - apply comment_ends_sound. now apply ends_completed.
  - apply comment_events_length, tool_answers_length.
Qed.

Lemma comment_on_ascii_output_witness :
  tool_answers (demo_world "y") (u "org/repo") (u "msg.md")
    [PyInt 5; PyInt 7] [] = map Some [b "posted"; b "posted"] /\
  comment (demo_world "y") [PyInt 5; PyInt 7] (u "org/repo") (u "msg.md") []
    = (Ok (u "postedposted"),
       comment_events (demo_world "y") (u "org/repo") (u "msg.md")
         [PyInt 5; PyInt 7] (map Some [b "posted"; b "posted"])).
Proof.
  split; [reflexivity|].
  exact (proj1 (comment_on_ascii_output (demo_world "y") (u "org/repo")
                  (u "msg.md") [PyInt 5; PyInt 7] [] [b "posted"; b "posted"]
                  eq_refl eq_refl eq_refl eq_refl eq_refl eq_refl)).
Defined.

(* ================================================================== *)
(** ** More on the extractor *)

Lemma rmapM_getitem_first_offender good : forall outs bad rest,
  map number_of good = map Some outs ->
  number_of bad = None ->
  rmapM (fun pr => py_getitem pr (u "number")) (good ++ bad :: rest)
    = Error (if is_object bad then KeyError else TypeError).
Proof.
  induction good as [|v good IH]; intros [|o outs] bad rest Hgood Hbad;
    simpl in Hgood; try discriminate.
  - simpl. rewrite py_getitem_number, Hbad. reflexivity.
  - injection Hgood as Hv Hrest. simpl.
    rewrite py_getitem_number, Hv. simpl.
    now rewrite (IH outs bad rest Hrest Hbad).
Qed.

(** X11.  On an array the extractor raises at the first element without a
    [number] member, whatever comes after it: [KeyError] when that element
    is an object, [TypeError] when it is anything else. *)
Theorem format_raises_at_first_offender raw good bad rest outs :
  decoded raw = Ok (PyList (good ++ bad :: rest)) ->
  map number_of good = map Some outs ->
  number_of bad = None ->
  format raw = Error (if is_object bad then KeyError else TypeError).
Proof.
  intros Hv Hgood Hbad. rewrite format_decoded, Hv. simpl.
  now apply rmapM_getitem_first_offender with outs.
Qed.

Lemma format_raises_at_first_offender_witness :
  let raw := b ("[{" ++ dq ++ "number" ++ dq ++ ":1},7,{}]")%string in
  decoded raw
    = Ok (PyList ([PyDict [(u "number", PyInt 1)]] ++ PyInt 7 :: [PyDict []])) /\
  format raw = Error TypeError.
Proof.
  intros raw.
  assert (Hv : decoded raw
               = Ok (PyList ([PyDict [(u "number", PyInt 1)]]
                               ++ PyInt 7 :: [PyDict []])))
    by (vm_compute; reflexivity).
  split; [exact Hv|].
  exact (format_raises_at_first_offender raw [PyDict [(u "number", PyInt 1)]]
           (PyInt 7) [PyDict []] [PyInt 1] Hv eq_refl eq_refl).
Defined.

Lemma rmapM_getitem_accepts vs :
  (exists out, rmapM (fun pr => py_getitem pr (u "number")) vs = Ok out) <->
  forallb has_number vs = true.
Proof.
  induction vs as [|v vs IH]; simpl.
  - split; [reflexivity | now exists []].
  - rewrite py_getitem_number. unfold has_number at 1.
    destruct (number_of v) as [x|]; simpl.
    + rewrite <- IH. split.
      * intros [out H].
        destruct (rmapM _ vs) as [ys|]; [now exists ys | discriminate].
      * intros [ys H]. rewrite H. now exists (x :: ys).
    + split; [intros [out H]; discriminate | discriminate].
Qed.

(** X12.  A listing that is a JSON array is accepted exactly when every
    element is an object with a [number] member, and then the result has one
    entry per element. *)
Theorem format_accepts_array_iff raw vs :
  decoded raw = Ok (PyList vs) ->
  ((exists out, format raw = Ok out) <-> forallb has_number vs = true) /\
  (forall out, format raw = Ok out -> List.length out = List.length vs).
Proof.
  intros Hv. rewrite format_decoded, Hv. simpl. split.
  - apply rmapM_getitem_accepts.
  - intros out H. apply rmapM_getitem_inv in H.
    apply (f_equal (@List.length _)) in H. now rewrite !length_map in H.
Qed.

Lemma format_accepts_array_iff_witness :
  decoded listing_5_7
    = Ok (PyList [PyDict [(u "number", PyInt 5)]; PyDict [(u "number", PyInt 7)]]) /\
  exists out, format listing_5_7 = Ok out.
Proof.
  assert (Hv : decoded listing_5_7
               = Ok (PyList [PyDict [(u "number", PyInt 5)];
                             PyDict [(u "number", PyInt 7)]]))
    by (vm_compute; reflexivity).
  split; [exact Hv|].
  exact (proj2 (proj1 (format_accepts_array_iff listing_5_7 _ Hv)) eq_refl).
Defined.

(* ================================================================== *)
(** ** Round trips *)

Lemma span_digits_uint d : forall rest,
  ends_number rest = true ->
  json.span_digits (u (NilEmpty.string_of_uint d) ++ rest)
    = (u (NilEmpty.string_of_uint d), rest).
Proof.
  induction d; intros rest Hrest; simpl NilEmpty.string_of_uint;
    rewrite ?u_cons, ?u_nil; simpl app;
    try (simpl json.span_digits; rewrite (IHd rest Hrest); reflexivity).
  destruct rest as [|c rest]; [reflexivity|].
  simpl in Hrest. simpl. destruct (json.is_digit c); [discriminate | reflexivity].
Qed.

Lemma to_uint_head p :
  match Pos.to_uint p with
  | Decimal.Nil | Decimal.D0 _ => False
  | _ => True
  end.
Proof.
  assert (Hn : Decimal.unorm (Pos.to_uint p) = Pos.to_uint p).
  { rewrite <- DecimalPos.Unsigned.to_of, DecimalPos.Unsigned.of_to. reflexivity. }
  destruct (Pos.to_uint p) as [|d|d|d|d|d|d|d|d|d|d] eqn:E; auto.
  - exact (DecimalPos.Unsigned.to_uint_nonnil p E).
  - rewrite DecimalFacts.unorm_D0 in Hn.
    assert (Hd : d = Decimal.Nil \/ d <> Decimal.Nil)
      by (destruct d; [left; reflexivity | right; discriminate ..]).
    destruct Hd as [-> | Hd]; [exact (DecimalPos.Unsigned.to_uint_nonzero p E)|].
    pose proof (DecimalFacts.nb_digits_unorm d Hd) as Hle.
    rewrite Hn in Hle. simpl in Hle. lia.
Qed.

Lemma ends_number_cases rest :
  ends_number rest = true ->
  match rest with
  | [] => True
  | c :: _ => json.is_digit c = false /\ (c =? 46) = false /\
              (c =? 101) = false /\ (c =? 69) = false
  end.
Proof.
  destruct rest as [|c rest]; [trivial|]. simpl. intros H.
  apply negb_true_iff in H. apply orb_false_iff in H as [H H69].
  apply orb_false_iff in H as [H H101]. apply orb_false_iff in H as [H H46].
  auto.
Qed.

Lemma match_number_pos p rest :
  ends_number rest = true ->
  (List.length (u (NilEmpty.string_of_uint (Pos.to_uint p)))
     <= int_max_str_digits)%nat ->
  json.match_number (u (NilEmpty.string_of_uint (Pos.to_uint p)) ++ rest)
    = Some (Ok (PyInt (Z.pos p)), rest).
Proof.
  intros H Hlen. apply Nat.ltb_ge in Hlen.
  pose proof (to_uint_head p) as Hh.
  pose proof (digits_value_uint (Pos.to_uint p)) as Hv.
  rewrite DecimalPos.Unsigned.of_to in Hv. cbn [Z.of_N] in Hv.
  destruct (Pos.to_uint p) as [|d|d|d|d|d|d|d|d|d|d]; try contradiction;
    cbn [NilEmpty.string_of_uint] in *; rewrite u_cons in *; cbn [app];
    unfold json.match_number; first_char;
    rewrite (span_digits_uint d rest H); cbn iota beta zeta;
    apply ends_number_cases in H; number_tail H Hv Hlen.
Qed.

Lemma match_number_neg p rest :
  ends_number rest = true ->
  (List.length (u (NilEmpty.string_of_uint (Pos.to_uint p)))
     <= int_max_str_digits)%nat ->
  json.match_number (45 :: u (NilEmpty.string_of_uint (Pos.to_uint p)) ++ rest)
    = Some (Ok (PyInt (Z.neg p)), rest).
Proof.
  intros H Hlen. apply Nat.ltb_ge in Hlen.
  pose proof (to_uint_head p) as Hh.
  pose proof (digits_value_uint (Pos.to_uint p)) as Hv.
  rewrite DecimalPos.Unsigned.of_to in Hv. cbn [Z.of_N] in Hv.
  destruct (Pos.to_uint p) as [|d|d|d|d|d|d|d|d|d|d]; try contradiction;
    cbn [NilEmpty.string_of_uint] in *; rewrite u_cons in *; cbn [app];
    unfold json.match_number; cbn [Z.eqb Pos.eqb]; first_char;
    rewrite (span_digits_uint d rest H); cbn iota beta zeta;
    apply ends_number_cases in H; number_tail H Hv Hlen.
Qed.

(** An integer converts when the digits of its absolute value are at most
    4300. *)
Lemma str_returns_digits n :
  str_returns (PyInt n) = true ->
  match n with
  | 0 => True
  | Z.pos p | Z.neg p =>
      (List.length (u (NilEmpty.string_of_uint (Pos.to_uint p)))
         <= int_max_str_digits)%nat
  end.
Proof.
  unfold str_returns, digit_count. intros H. apply Nat.leb_le in H.
  destruct n as [|p|p]; [trivial| |]; cbn [Z.abs] in H;
    now rewrite str_int_cases in H.
Qed.

Lemma match_number_str_int n rest :
  str_returns (PyInt n) = true ->
  ends_number rest = true ->
  json.match_number (str_int n ++ rest) = Some (Ok (PyInt n), rest).
Proof.
  intros Hn H. apply str_returns_digits in Hn.
  rewrite str_int_cases. destruct n as [|p|p].
  - cbn [app]. unfold json.match_number.
    cbn [Z.eqb Pos.eqb json.is_digit between Z.leb Z.compare Pos.compare
         Pos.compare_cont andb].
    assert (Hl : (int_max_str_digits <? List.length [48])%nat = false)
      by reflexivity.
    apply ends_number_cases in H. number_tail H H Hl.
  - now apply match_number_pos.
  - now apply match_number_neg.
Qed.

Lemma strip_prefix_other_head p c tl x :
  c <> x -> json.strip_prefix (x :: p) (c :: tl) = None.
Proof.
  intros H. cbn [json.strip_prefix].
  now rewrite (proj2 (Z.eqb_neq x c)) by congruence.
Qed.

Lemma scan_once_number fuel depth c tl v rest :
  c = 45 \/ 48 <= c <= 57 ->
  json.match_number (c :: tl) = Some (Ok v, rest) ->
  json.scan_once (S fuel) depth (c :: tl) = Ok (v, rest).
Proof.
  intros Hc Hm. cbn [json.scan_once].
  rewrite (proj2 (Z.eqb_neq c 34)), (proj2 (Z.eqb_neq c 123)),
    (proj2 (Z.eqb_neq c 91)) by lia.
  change (u "null") with (110 :: u "ull").
  change (u "true") with (116 :: u "rue").
  change (u "false") with (102 :: u "alse").
  rewrite !strip_prefix_other_head by lia.
  now rewrite Hm.
Qed.

Lemma str_int_head n rest :
  exists c tl, str_int n ++ rest = c :: tl /\ (c = 45 \/ 48 <= c <= 57).
Proof.
  rewrite str_int_cases. destruct n as [|p|p].
  - exists 48, rest. split; [reflexivity | lia].
  - pose proof (to_uint_head p) as Hh.
    destruct (Pos.to_uint p) as [|d|d|d|d|d|d|d|d|d|d]; try contradiction;
      cbn [NilEmpty.string_of_uint]; rewrite u_cons; cbn [app];
      eexists _, _; (split; [reflexivity | right; vm_compute; split; discriminate]).
  - eexists _, _. split; [reflexivity | now left].
Qed.

Lemma scan_once_str_int fuel depth n rest :
  str_returns (PyInt n) = true ->
  ends_number rest = true ->
  json.scan_once (S fuel) depth (str_int n ++ rest) = Ok (PyInt n, rest).
Proof.
  intros Hn H. destruct (str_int_head n rest) as (c & tl & Hs & Hc).
  pose proof (match_number_str_int n rest Hn H) as Hm. rewrite Hs in *.
  now apply scan_once_number.
Qed.

Lemma loads_fuel n : (2 * n + 2)%nat = S (S (2 * n)).
Proof. lia. Qed.

Lemma loads_str_int n :
  str_returns (PyInt n) = true -> loads (str_int n) = Ok (PyInt n).
Proof.
  intros Hn. unfold loads, json.loads.
  destruct (str_int_head n []) as (c & tl & Hs & Hc).
  rewrite List.app_nil_r in Hs.
  assert (Hscan : forall fuel depth,
             json.scan_once (S fuel) depth (str_int n) = Ok (PyInt n, [])).
  { intros fuel depth.
    pose proof (scan_once_str_int fuel depth n [] Hn eq_refl) as Hscan.
    now rewrite List.app_nil_r in Hscan. }
  rewrite Hs in *.
  assert (Hws : json.is_ws c = false).
  { unfold json.is_ws. destruct Hc as [-> | Hc]; [reflexivity|].
    rewrite !(proj2 (Z.eqb_neq c _)) by lia. reflexivity. }
  cbn [json.skip_ws]. rewrite Hws, loads_fuel, Hscan.
  assert (Hcs : c = 45 \/ c = 48 \/ c = 49 \/ c = 50 \/ c = 51 \/ c = 52 \/
                c = 53 \/ c = 54 \/ c = 55 \/ c = 56 \/ c = 57) by lia.
  repeat (destruct Hcs as [-> | Hcs]; [reflexivity|]). now subst.
Qed.

Lemma scanstring_number depth rest :
  json.scanstring_at depth (u "number" ++ 34 :: rest) = Ok (u "number", rest).
Proof. reflexivity. Qed.

Lemma skip_ws_str_int n rest :
  json.skip_ws (str_int n ++ rest) = str_int n ++ rest.
Proof.
  destruct (str_int_head n rest) as (c & tl & Hs & Hc). rewrite Hs.
  cbn [json.skip_ws].
  assert (Hws : json.is_ws c = false).
  { unfold json.is_ws. destruct Hc as [-> | Hc]; [reflexivity|].
    rewrite !(proj2 (Z.eqb_neq c _)) by lia. reflexivity. }
  now rewrite Hws.
Qed.

Lemma scan_once_item fuel depth n more :
  str_returns (PyInt n) = true ->
  json.scan_once (S (S (S fuel))) (S depth) (listing_item n ++ more)
    = Ok (number_object n, more).
Proof.
  intros Hn. unfold listing_item.
  change (u ("{" ++ dq ++ "number" ++ dq ++ ":")%string)
    with ([123; 34] ++ u "number" ++ [34; 58]).
  rewrite <- !List.app_assoc. cbn [app].
  cbn [json.scan_once Z.eqb Pos.eqb json.skip_ws json.is_ws orb].
  cbn [json.JSONObject]. rewrite scanstring_number.
  cbn [rbind json.skip_ws json.is_ws Z.eqb Pos.eqb orb].
  rewrite skip_ws_str_int.
  rewrite (scan_once_str_int fuel depth n (125 :: more) Hn eq_refl).
  cbn [rbind json.skip_ws json.is_ws Z.eqb Pos.eqb orb dict_set].
  reflexivity.
Qed.

Lemma listing_items_head n ns more :
  exists tl, listing_items (n :: ns) ++ more = 123 :: tl.
Proof.
  destruct ns; cbn [listing_items]; unfold listing_item;
    change (u ("{" ++ dq ++ "number" ++ dq ++ ":")%string)
      with ([123; 34] ++ u "number" ++ [34; 58]);
    rewrite <- !List.app_assoc; cbn [app]; eexists; reflexivity.
Qed.

Lemma JSONArray_listing depth : forall ns n fuel acc more,
  forallb (fun k => str_returns (PyInt k)) (n :: ns) = true ->
  (List.length ns + 4 <= fuel)%nat ->
  json.JSONArray fuel (S depth) (listing_items (n :: ns) ++ 93 :: more) acc
    = Ok (PyList (rev acc ++ map number_object (n :: ns)), more).
Proof.
  induction ns as [|m ns IH]; intros n fuel acc more Hns Hfuel;
    cbn [forallb] in Hns; apply andb_true_iff in Hns as [Hn Hns].
  - destruct fuel as [|[|[|[|fuel]]]]; simpl in Hfuel; try lia.
    cbn [listing_items json.JSONArray]. rewrite (scan_once_item _ _ _ _ Hn).
    cbn [rbind json.skip_ws json.is_ws Z.eqb Pos.eqb orb rev map].
    reflexivity.
  - destruct fuel as [|fuel]; simpl in Hfuel; [lia|].
    change (listing_items (n :: m :: ns))
      with (listing_item n ++ [44] ++ listing_items (m :: ns)).
    rewrite <- !List.app_assoc. cbn [json.JSONArray].
    assert (Hf : exists f, fuel = S (S (S f)))
      by (destruct fuel as [|[|[|f]]]; try lia; now exists f).
    destruct Hf as [f Hf]. rewrite Hf at 1.
    rewrite (scan_once_item _ _ _ _ Hn).
    cbn [app rbind json.skip_ws json.is_ws Z.eqb Pos.eqb orb].
    destruct (listing_items_head m ns (93 :: more)) as [tl Htl].
    rewrite Htl. cbn [json.skip_ws json.is_ws Z.eqb Pos.eqb orb].
    rewrite <- Htl. rewrite IH by (trivial; lia).
    cbn [rev map]. rewrite <- List.app_assoc. reflexivity.
Qed.

Lemma listing_text_length ns :
  (List.length ns <= List.length (listing_items ns))%nat.
Proof.
  induction ns as [|n [|m ns] IH]; [simpl; lia| |].
  - cbn [listing_items]. unfold listing_item. rewrite !length_app. simpl. lia.
  - change (listing_items (n :: m :: ns))
      with (listing_item n ++ [44] ++ listing_items (m :: ns)).
    rewrite !length_app. simpl in *. lia.
Qed.

Lemma skip_ws_white ws : forallb json.is_ws ws = true -> json.skip_ws ws = [].
Proof.
  induction ws as [|c ws IH]; [reflexivity|]. simpl. intros H.
  apply andb_true_iff in H as [Hc Hws]. rewrite Hc. now apply IH.
Qed.

Lemma white_ascii ws :
  forallb json.is_ws ws = true -> Forall (fun c => 0 <= c < 128) ws.
Proof.
  induction ws as [|c ws IH]; [constructor|]. simpl. intros H.
  apply andb_true_iff in H as [Hc Hws]. constructor; [|now apply IH].
  unfold json.is_ws in Hc. rewrite !orb_true_iff, !Z.eqb_eq in Hc. lia.
Qed.

Lemma loads_listing_text ns ws :
  forallb (fun k => str_returns (PyInt k)) ns = true ->
  forallb json.is_ws ws = true ->
  loads (listing_text ns ++ ws) = Ok (PyList (map number_object ns)).
Proof.
  intros Hns Hws. apply skip_ws_white in Hws.
  unfold loads, json.loads, listing_text. rewrite <- !List.app_assoc.
  cbn [app json.skip_ws json.is_ws Z.eqb Pos.eqb orb].
  rewrite loads_fuel. change json.max_nesting with (S (S 992)).
  destruct ns as [|n ns].
  - cbn [listing_items app json.scan_once json.skip_ws json.is_ws
         Z.eqb Pos.eqb orb rbind]. now rewrite Hws.
  - cbn [json.scan_once Z.eqb Pos.eqb].
    destruct (listing_items_head n ns (93 :: ws)) as [tl Htl]. rewrite Htl.
    cbn [json.skip_ws json.is_ws Z.eqb Pos.eqb orb]. rewrite <- Htl.
    rewrite JSONArray_listing.
    + cbn [rbind rev app]. now rewrite Hws.
    + exact Hns.
    + pose proof (listing_text_length (n :: ns)) as Hl.
      cbn [List.length] in *. rewrite length_app. lia.
Qed.

Lemma byte_val_encode c :
  0 <= c < 128 ->
  byte_val (match Byte.of_N (Z.to_N c) with Some x => x | None => x00 end) = c.
Proof.
  intros Hc. destruct (Byte.of_N (Z.to_N c)) as [x|] eqn:E.
  - unfold byte_val. rewrite (Byte.to_of_N _ E). lia.
  - apply Byte.of_N_None_iff in E. lia.
Qed.

Lemma decode_encode_ascii s :
  Forall (fun c => 0 <= c < 128) s -> decode_utf8 (encode_ascii s) = Ok s.
Proof.
  induction 1 as [|c s Hc Hs IH]; [reflexivity|].
  cbn [encode_ascii map decode_utf8]. rewrite (byte_val_encode c Hc).
  fold (encode_ascii s). rewrite IH.
  rewrite (proj2 (Z.ltb_lt c 128)) by lia. reflexivity.
Qed.

Lemma uint_digits_ascii d :
  Forall (fun c => 0 <= c < 128) (u (NilEmpty.string_of_uint d)).
Proof.
  induction d; cbn [NilEmpty.string_of_uint]; rewrite ?u_cons, ?u_nil;
    [ constructor
    | constructor;
      [vm_compute; split; [discriminate | reflexivity] | exact IHd] .. ].
Qed.

Lemma str_int_ascii n : Forall (fun c => 0 <= c < 128) (str_int n).
Proof.
  rewrite str_int_cases. destruct n as [|p|p].
  - repeat constructor; lia.
  - apply uint_digits_ascii.
  - constructor; [lia | apply uint_digits_ascii].
Qed.

Lemma listing_item_ascii n : Forall (fun c => 0 <= c < 128) (listing_item n).
Proof.
  unfold listing_item. rewrite !Forall_app. split; [|split].
  - vm_compute. repeat constructor; try discriminate; reflexivity.
  - apply str_int_ascii.
  - repeat constructor; lia.
Qed.

Lemma listing_text_ascii ns : Forall (fun c => 0 <= c < 128) (listing_text ns).
Proof.
  unfold listing_text. rewrite !Forall_app. split; [|split];
    try (repeat constructor; lia).
  induction ns as [|n [|m ns] IH]; [constructor | apply listing_item_ascii |].
  change (listing_items (n :: m :: ns))
    with (listing_item n ++ [44] ++ listing_items (m :: ns)).
  rewrite !Forall_app. split; [apply listing_item_ascii|].
  split; [repeat constructor; lia | exact IH].
Qed.

Lemma format_listing ns ws :
  forallb (fun k => str_returns (PyInt k)) ns = true ->
  forallb json.is_ws ws = true ->
  format (encode_ascii (listing_text ns ++ ws)) = Ok (map PyInt ns).
Proof.
  intros Hns Hws. unfold format. rewrite decode_encode_ascii.
  - cbn [rbind]. rewrite (loads_listing_text ns ws Hns Hws).
    cbn [rbind py_iter].
    apply rmapM_getitem_ok. rewrite !map_map. reflexivity.
  - apply Forall_app. split; [apply listing_text_ascii | now apply white_ascii].
Qed.

(** The decimal text of an integer determines it. *)
Lemma str_int_inj n m : str_int n = str_int m -> n = m.
Proof.
  intros H.
  assert (Hread : forall k,
             match str_int k with
             | c :: ds => if c =? 45 then - json.digits_value ds
                          else json.digits_value (c :: ds)
             | [] => 0
             end = k).
  { intros k. rewrite str_int_cases. destruct k as [|p|p].
    - reflexivity.
    - pose proof (digits_value_uint (Pos.to_uint p)) as Hv.
      rewrite DecimalPos.Unsigned.of_to in Hv. cbn [Z.of_N] in Hv.
      pose proof (to_uint_head p) as Hh.
      destruct (Pos.to_uint p) as [|d|d|d|d|d|d|d|d|d|d]; try contradiction;
        cbn [NilEmpty.string_of_uint] in *; rewrite u_cons in *;
        first_char; exact Hv.
    - cbn [Z.eqb Pos.eqb].
      pose proof (digits_value_uint (Pos.to_uint p)) as Hv.
      rewrite DecimalPos.Unsigned.of_to in Hv. cbn [Z.of_N] in Hv.
      now rewrite Hv. }
  rewrite <- (Hread n), <- (Hread m), H. reflexivity.
Qed.

(** X13.  The text the commenter passes in its command line for an integer
    identifier that converts is read back by the extractor's JSON reader as
    that integer, whatever its sign. *)
Theorem identifier_text_reads_back w n repo f :
  str_returns (PyInt n) = true ->
  exists s,
    nth_error (comment_argv w (PyInt n) repo f) 3 = Some s /\
    loads s = Ok (PyInt n).
Proof.
  intros Hn. exists (str_int n). split; [reflexivity|].
  now apply loads_str_int.
Qed.

Lemma identifier_text_reads_back_witness :
  str_returns (PyInt (-42)) = true /\
  exists s,
    nth_error (comment_argv (demo_world "y") (PyInt (-42)) (u "org/repo")
                 (u "msg.md")) 3 = Some s /\
    loads s = Ok (PyInt (-42)).
Proof.
  split; [reflexivity|].
  exact (identifier_text_reads_back (demo_world "y") (-42) (u "org/repo")
           (u "msg.md") eq_refl).
Defined.

(** X14.  The command line of a comment determines the request: two
    command lines for integer identifiers are equal only if the
    identifiers, the repositories and the files are. *)
Theorem comment_argv_determines_request w n m repo repo' f f' :
  comment_argv w (PyInt n) repo f = comment_argv w (PyInt m) repo' f' ->
  n = m /\ repo = repo' /\ f = f'.
Proof.
  unfold comment_argv. cbn [py_str]. intros H.
  injection H as Hn Hf Hrepo. repeat split; trivial.
  now apply str_int_inj.
Qed.

Lemma comment_argv_determines_request_witness :
  comment_argv (demo_world "y") (PyInt 5) (u "org/repo") (u "msg.md")
    = comment_argv (demo_world "y") (PyInt 5) (u "org/repo") (u "msg.md") /\
  5 = 5 /\ u "org/repo" = u "org/repo" /\ u "msg.md" = u "msg.md".
Proof.
  split; [reflexivity|].
  exact (comment_argv_determines_request (demo_world "y") 5 5 (u "org/repo")
           (u "org/repo") (u "msg.md") (u "msg.md") eq_refl).
Defined.

(** X15.  For every list of integers of at most 4300 digits each, the
    extractor applied to the bytes of its compact JSON listing, followed by
    any white space (the final line feed of a command's output, say),
    returns the list: the same integers in the same order. *)
Theorem format_listing_round_trip ns ws :
  forallb (fun n => str_returns (PyInt n)) ns = true ->
  forallb json.is_ws ws = true ->
  format (encode_ascii (listing_text ns ++ ws)) = Ok (map PyInt ns).
Proof. apply format_listing. Qed.

Lemma format_listing_round_trip_witness :
  forallb (fun n => str_returns (PyInt n)) [12; 0; -7] = true /\
  forallb json.is_ws [10] = true /\
  format (encode_ascii (listing_text [12; 0; -7] ++ [10]))
    = Ok (map PyInt [12; 0; -7]).
Proof.
  split; [reflexivity|]. split; [reflexivity|].
  exact (format_listing_round_trip [12; 0; -7] [10] eq_refl eq_refl).
Defined.

Lemma comment_events_of_integers w repo f : forall ns outs,
  comment_events w repo f (map PyInt ns) outs
    = map (fun no => EvRun [u "gh"; u "pr"; u "comment"; str_int (fst no);
                            u "-F"; f; u "-R"; repo] (snd no))
          (combine ns outs).
Proof.
  unfold comment_events.
  induction ns as [|n ns IH]; intros [|o outs]; try reflexivity.
  simpl. f_equal. apply IH.
Qed.

Lemma forallb_str_returns ns :
  forallb str_returns (map PyInt ns)
    = forallb (fun n => str_returns (PyInt n)) ns.
Proof.
  induction ns as [|n ns IH]; [reflexivity|]. simpl. now rewrite IH.
Qed.

(** X16.  From the listing to the marker, for a repository and a file name
    the operating system accepts as arguments: when the tool prints the
    compact listing of the pull requests [ns], integers of at most 4300
    digits each (white space may follow the listing), the answer is y or Y,
    and every comment invocation starts and prints UTF-8 text, the run asks
    about [length ns] pull requests, comments once on each of [ns], in order
    and under its decimal number, prints the marker and returns. *)
Theorem main_comments_on_every_listed w script repo cf rest ns ws response
    texts :
  arg_clean repo = true ->
  arg_clean cf = true ->
  forallb (fun n => str_returns (PyInt n)) ns = true ->
  forallb json.is_ws ws = true ->
  let listing := encode_ascii (listing_text ns ++ ws) in
  let asked := [EvRun (fetch_argv repo) (Some listing);
                EvInput (prompt_text (List.length ns) repo cf)
                        (Some response)] in
  let answers := tool_answers w repo cf (map PyInt ns) asked in
  tool w [] (fetch_argv repo) = Some listing ->
  stdin w [EvRun (fetch_argv repo) (Some listing)]
        (prompt_text (List.length ns) repo cf) = Some response ->
  is_yes response = true ->
  rmapM stdout_text answers = Ok texts ->
  List.length answers = List.length ns /\
  main w (script :: repo :: cf :: rest) [] =
    (Ok tt,
     asked
       ++ map (fun no => EvRun [u "gh"; u "pr"; u "comment";
                                str_int (fst no); u "-F"; cf; u "-R"; repo]
                               (snd no))
              (combine ns answers)
       ++ [EvPrint (u "Done")]).
Proof.
  intros _ _ Hns Hws listing asked answers Htool Hstdin Hyes Htexts.
  split.
  { unfold answers. now rewrite tool_answers_length, length_map. }
  pose proof (format_listing ns ws Hns Hws) as Hformat. fold listing in Hformat.
  rewrite <- (length_map PyInt ns) in Hstdin.
  rewrite (main_after_input _ _ _ _ _ _ _ _ Htool Hformat Hstdin).
  fold (is_yes response). rewrite Hyes. rewrite (length_map PyInt ns).
  fold asked. rewrite <- forallb_str_returns in Hns.
  unfold bind.
  rewrite (comment_ends_sound _ _ _ _ _ _
             (ends_completed _ _ _ _ _ texts Hns Htexts)).
  fold answers. rewrite comment_events_of_integers.
  unfold print. now rewrite <- app_assoc.
Qed.

(** A tool that prints the listing of 5, 7 and -3 and a line feed on
    request, and [posted] otherwise. *)
Lemma main_comments_on_every_listed_witness :
  let listing := encode_ascii (listing_text [5; 7; -3] ++ [10]) in
  let w := stub_world listing (b "posted") (u "Y") in
  main w demo_argv [] =
    (Ok tt,
     [EvRun (fetch_argv (u "org/repo")) (Some listing);
      EvInput (prompt_text 3 (u "org/repo") (u "msg.md")) (Some (u "Y"));
      EvRun [u "gh"; u "pr"; u "comment"; u "5"; u "-F"; u "msg.md";
             u "-R"; u "org/repo"] (Some (b "posted"));
      EvRun [u "gh"; u "pr"; u "comment"; u "7"; u "-F"; u "msg.md";
             u "-R"; u "org/repo"] (Some (b "posted"));
      EvRun [u "gh"; u "pr"; u "comment"; u "-3"; u "-F"; u "msg.md";
             u "-R"; u "org/repo"] (Some (b "posted"));
      EvPrint (u "Done")]).
Proof.
  intros listing w.
  exact (proj2 (main_comments_on_every_listed w (u "comment.py") (u "org/repo")
                  (u "msg.md") [] [5; 7; -3] [10] (u "Y")
                  [u "posted"; u "posted"; u "posted"]
                  eq_refl eq_refl eq_refl eq_refl eq_refl eq_refl eq_refl
                  eq_refl)).
Defined.

(** X17.  A listing that begins with a UTF-8 byte-order mark is refused:
    the decoding keeps the mark and the JSON reader raises on it. *)
Theorem format_refuses_byte_order_mark raw text :
  decode_utf8 raw = Ok text ->
  format (xef :: xbb :: xbf :: raw) = Error JSONDecodeError.
Proof.
  intros Hdec. unfold format.
  change (decode_utf8 (xef :: xbb :: xbf :: raw))
    with (rmap (cons 0xFEFF) (decode_utf8 raw)).
  rewrite Hdec. reflexivity.
Qed.

Lemma format_refuses_byte_order_mark_witness :
  decode_utf8 listing_5_7 = Ok (map byte_val listing_5_7) /\
  format (xef :: xbb :: xbf :: listing_5_7) = Error JSONDecodeError.
Proof.
  assert (H : decode_utf8 listing_5_7 = Ok (map byte_val listing_5_7))
    by (vm_compute; reflexivity).
  split; [exact H|].
  exact (format_refuses_byte_order_mark listing_5_7 _ H).
Defined.
